(** * FortAS-AI: the identity and session subsystem (services/authService.ts)

    A shallow embedding of [PasswordUtils] and [AuthService] with their three
    process-wide maps ([users], [otpStore], [sessions]) and the two
    [localStorage] entries they use, followed by the properties of the
    subsystem.

    Conventions.
    - Every service operation is a function from the state before the call to
      a completion (value returned or error thrown) and the state after it.
    - [Date.now()] is the argument [now] (milliseconds) of the operation that
      reads the clock; [Math.random()] is an argument holding what the draw
      produced.
    - A number is an IEEE 754 binary64 value.  Where the code computes with a
      number that need not stay a small integer (the draw of an OTP, the
      [++] of a counter) the result is rounded as binary64 arithmetic rounds
      it, see [round_binary64].
    - [users] is a JavaScript [Map] whose values are object references: the
      same object is stored under the email key and under the mobile key, and
      the code mutates it in place.  The model keeps a heap of objects and a
      map from keys to heap addresses, in insertion order. *)

From Stdlib Require Import ZArith List String Ascii DecimalString Lia.
From Stdlib Require Import Decimal DecimalFacts DecimalPos DecimalN.
From Stdlib.Strings Require Import Byte.
From stdpp Require Import base tactics option list strings gmap.

Local Open Scope string_scope.
Local Open Scope list_scope.
Local Open Scope Z_scope.

(** ** Completions *)

Inductive Error : Type :=
  | JsError (message : string)          (* throw new Error(message) *)
  | ReferenceError (name : string).     (* an identifier with no binding *)

Inductive Completion (A : Type) : Type :=
  | Returned (a : A)
  | Thrown (e : Error).
Arguments Returned {A} a.
Arguments Thrown {A} e.

Definition throws {A} (c : Completion A) : bool :=
  match c with Thrown _ => true | Returned _ => false end.

(** ** types.ts *)

Inductive MembershipType : Type := Free | Premium.

Inductive OTPType : Type := otp_register | otp_login | otp_reset.

Definition OTPType_eqb (a b : OTPType) : bool :=
  match a, b with
  | otp_register, otp_register | otp_login, otp_login | otp_reset, otp_reset => true
  | _, _ => false
  end.

Record ActivityStats : Type := {
  totalChats : Z;
  filesUploaded : Z;
  reportsGenerated : Z
}.

Record Settings : Type := {
  autoLogout : bool;
  rememberMe : bool;
  notifications : bool
}.

(** [interface User]; a [Date] is its time value in milliseconds, an optional
    property is an [option]. *)
Record User : Type := {
  id : string;
  fullName : string;
  email : string;
  mobile : string;
  isAuthenticated : bool;
  registrationDate : Z;
  membershipType : MembershipType;
  preferredRole : option string;
  profilePicture : option string;
  lastLoginDate : option Z;
  activityStats : option ActivityStats
}.

(** [User & { hashedPassword: string }], the type of the values of [users].
    [settings] is not declared on it, but [Object.assign] in [updateProfile]
    copies it from a [Partial<UserProfile>] onto the stored object. *)
Record StoredUser : Type := {
  user : User;
  hashedPassword : string;
  settings : option Settings
}.

(** [Partial<UserProfile>]: every property of [UserProfile] present or absent. *)
Record UserProfileUpdates : Type := {
  upd_id : option string;
  upd_fullName : option string;
  upd_email : option string;
  upd_mobile : option string;
  upd_membershipType : option MembershipType;
  upd_preferredRole : option string;
  upd_profilePicture : option string;
  upd_registrationDate : option Z;
  upd_lastLoginDate : option Z;
  upd_activityStats : option ActivityStats;
  upd_settings : option Settings
}.

Record RegisterData : Type := {
  reg_fullName : string;
  reg_email : string;
  reg_mobile : string;
  reg_password : string
}.

Record LoginData : Type := {
  emailOrMobile : string;
  password : string
}.

Record PasswordResetData : Type := {
  reset_email : string;
  reset_newPassword : string;
  reset_otp : string
}.

Record OTPResponse : Type := {
  success : bool;
  message : string;
  otpSent : option bool;
  otp : option string
}.

(** The values of [otpStore] and of [sessions]. *)
Record OTPEntry : Type := {
  entry_otp : string;
  entry_expires : Z;
  entry_type : OTPType
}.

Record Session : Type := {
  userId : string;
  expires : Z
}.

(** ** Numbers

    A finite binary64 value is an integer of fewer than 54 bits times a power
    of two, and every one of them is a whole multiple of 2^-1074.  A number
    is held here as an integer count of a unit that is a power of two, 1 for
    the counters and 2^-1074 for the draw of [Math.random()]; in such a unit
    the binary64 values are the integers [m * 2 ^ e] with [|m| < 2 ^ 53] and
    [0 <= e].  Overflow to [Infinity], from 2^1024 on, is not modelled. *)
Definition binary64 (y : Z) : Prop :=
  exists m e, 0 <= e /\ Z.abs m < 2 ^ 53 /\ y = m * 2 ^ e.

(** The result of an arithmetic operation is the exact result rounded to the
    nearest binary64 value, a tie going to the value whose 53-bit integer is
    even.  An integer below 2^53 in absolute value is a binary64 value;
    from there on the binary64 values around [x] are the multiples of
    [2 ^ e] for [e = log2 |x| - 52]. *)
Definition round_binary64 (x : Z) : Z :=
  if Z.abs x <? 2 ^ 53 then x
  else
    let e := Z.log2 (Z.abs x) - 52 in
    let q := x / 2 ^ e in
    let r := x mod 2 ^ e in
    let half := 2 ^ (e - 1) in
    if r <? half then q * 2 ^ e
    else if half <? r then (q + 1) * 2 ^ e
    else if Z.even q then q * 2 ^ e else (q + 1) * 2 ^ e.

(** The new value of [n++], for a number [n] counted in units of 1. *)
Definition increment (n : Z) : Z := round_binary64 (n + 1).

(** The number 1, counted in units of 2^-1074. *)
Definition binary64_one : Z := 2 ^ 1074.

(** ** Numbers to strings *)

(** [n.toString()] of an integer. *)
Definition toString (n : Z) : string := NilZero.string_of_int (Z.to_int n).

Definition digit36 (d : Z) : ascii :=
  if d <? 10 then ascii_of_N (Z.to_N (48 + d)) else ascii_of_N (Z.to_N (87 + d)).

Fixpoint toString36_digits (fuel : nat) (n : Z) (acc : string) : string :=
  match fuel with
  | O => acc
  | S fuel' =>
      let acc' := String (digit36 (n mod 36)) acc in
      if n / 36 =? 0 then acc' else toString36_digits fuel' (n / 36) acc'
  end.

(** [n.toString(36)] of an integer. *)
Definition toString36 (n : Z) : string :=
  if n <? 0
  then "-" +:+ toString36_digits (S (Z.to_nat (Z.log2 (- n)))) (- n) ""
  else toString36_digits (S (Z.to_nat (Z.log2 n))) n "".

(** [b.toString(16).padStart(2, '0')] of a byte. *)
Definition hex_digit (d : N) : ascii :=
  if (d <? 10)%N then ascii_of_N (48 + d) else ascii_of_N (87 + d).

Definition hex2 (b : byte) : string :=
  let n := Byte.to_N b in
  String (hex_digit (n / 16)) (String (hex_digit (n mod 16)) "").

(** ** A JavaScript [Map] with string keys, in insertion order *)

Section JsMap.
Context {V : Type}.

Definition JsMap : Type := list (string * V).

Fixpoint map_get (k : string) (m : list (string * V)) : option V :=
  match m with
  | [] => None
  | (k', v) :: m' => if String.eqb k k' then Some v else map_get k m'
  end.

Definition map_has (k : string) (m : list (string * V)) : bool :=
  match map_get k m with Some _ => true | None => false end.

(** [m.set(k, v)]: an existing key keeps its position, a new key goes last. *)
Fixpoint map_set (k : string) (v : V) (m : list (string * V)) : list (string * V) :=
  match m with
  | [] => [(k, v)]
  | (k', v') :: m' =>
      if String.eqb k k' then (k', v) :: m' else (k', v') :: map_set k v m'
  end.

Definition map_values (m : list (string * V)) : list V := snd <$> m.
End JsMap.
Arguments JsMap V : clear implicits.

(** ** Arrays *)

(** [arr.findIndex(p)]: the first index whose element satisfies [p], or -1. *)
Fixpoint findIndex {A} (p : A -> bool) (arr : list A) : Z :=
  match arr with
  | [] => -1
  | x :: arr' =>
      if p x then 0
      else let i := findIndex p arr' in if i <? 0 then -1 else 1 + i
  end.

(** [arr.filter((x, index) => p x index)], the indices starting at [i]. *)
Fixpoint filter_indexed {A} (p : A -> Z -> bool) (i : Z) (arr : list A) : list A :=
  match arr with
  | [] => []
  | x :: arr' =>
      if p x i then x :: filter_indexed p (i + 1) arr' else filter_indexed p (i + 1) arr'
  end.

(** ** The state of the service

    [heap] holds the user objects; an address is an index into it and objects
    are never freed.  [users] is the static [Map] of [AuthService], from a key
    (an email or a mobile number) to the address of the object stored under
    it.  [fortas_users] and [fortas_session_token] are the two [localStorage]
    items, the first one as the array its JSON text encodes. *)
Record State : Type := {
  heap : list StoredUser;
  users : list (string * nat);
  otpStore : gmap string OTPEntry;
  sessions : gmap string Session;
  fortas_users : option (list StoredUser);
  fortas_session_token : option string
}.

(** A page that has just been loaded on a browser that never ran the
    application. *)
Definition initial_state : State :=
  {| heap := []; users := []; otpStore := ∅; sessions := ∅;
     fortas_users := None; fortas_session_token := None |}.

(** What a reload of the page leaves: the static maps are empty again, the
    [localStorage] items are kept. *)
Definition reload_page (st : State) : State :=
  {| heap := []; users := []; otpStore := ∅; sessions := ∅;
     fortas_users := fortas_users st;
     fortas_session_token := fortas_session_token st |}.

Definition with_store (h : list StoredUser) (m : list (string * nat)) (st : State) : State :=
  {| heap := h; users := m; otpStore := otpStore st; sessions := sessions st;
     fortas_users := fortas_users st;
     fortas_session_token := fortas_session_token st |}.

Definition with_heap (h : list StoredUser) (st : State) : State :=
  with_store h (users st) st.

Definition with_otpStore (o : gmap string OTPEntry) (st : State) : State :=
  {| heap := heap st; users := users st; otpStore := o; sessions := sessions st;
     fortas_users := fortas_users st;
     fortas_session_token := fortas_session_token st |}.

Definition with_fortas_users (a : list StoredUser) (st : State) : State :=
  {| heap := heap st; users := users st; otpStore := otpStore st;
     sessions := sessions st; fortas_users := Some a;
     fortas_session_token := fortas_session_token st |}.

Definition with_session (token : string) (s : Session) (st : State) : State :=
  {| heap := heap st; users := users st; otpStore := otpStore st;
     sessions := <[token := s]> (sessions st);
     fortas_users := fortas_users st;
     fortas_session_token := Some token |}.

(** ** Mutation of a stored user object *)

Definition set_lastLoginDate (d : Z) (u : StoredUser) : StoredUser :=
  {| user := {| id := id (user u); fullName := fullName (user u);
                email := email (user u); mobile := mobile (user u);
                isAuthenticated := isAuthenticated (user u);
                registrationDate := registrationDate (user u);
                membershipType := membershipType (user u);
                preferredRole := preferredRole (user u);
                profilePicture := profilePicture (user u);
                lastLoginDate := Some d;
                activityStats := activityStats (user u) |};
     hashedPassword := hashedPassword u;
     settings := settings u |}.

Definition set_hashedPassword (h : string) (u : StoredUser) : StoredUser :=
  {| user := user u; hashedPassword := h; settings := settings u |}.

Definition set_membershipType (m : MembershipType) (u : StoredUser) : StoredUser :=
  {| user := {| id := id (user u); fullName := fullName (user u);
                email := email (user u); mobile := mobile (user u);
                isAuthenticated := isAuthenticated (user u);
                registrationDate := registrationDate (user u);
                membershipType := m;
                preferredRole := preferredRole (user u);
                profilePicture := profilePicture (user u);
                lastLoginDate := lastLoginDate (user u);
                activityStats := activityStats (user u) |};
     hashedPassword := hashedPassword u;
     settings := settings u |}.

Definition set_activityStats (a : ActivityStats) (u : StoredUser) : StoredUser :=
  {| user := {| id := id (user u); fullName := fullName (user u);
                email := email (user u); mobile := mobile (user u);
                isAuthenticated := isAuthenticated (user u);
                registrationDate := registrationDate (user u);
                membershipType := membershipType (user u);
                preferredRole := preferredRole (user u);
                profilePicture := profilePicture (user u);
                lastLoginDate := lastLoginDate (user u);
                activityStats := Some a |};
     hashedPassword := hashedPassword u;
     settings := settings u |}.

(** The second parameter of [updateActivityStats]: ['chat' | 'file' | 'report']. *)
Inductive ActivityKind : Type := act_chat | act_file | act_report.

(** The [switch] of [updateActivityStats]: the counter of the kind, [++]. *)
Definition bump_stats (kind : ActivityKind) (a : ActivityStats) : ActivityStats :=
  match kind with
  | act_chat =>
      {| totalChats := increment (totalChats a); filesUploaded := filesUploaded a;
         reportsGenerated := reportsGenerated a |}
  | act_file =>
      {| totalChats := totalChats a; filesUploaded := increment (filesUploaded a);
         reportsGenerated := reportsGenerated a |}
  | act_report =>
      {| totalChats := totalChats a; filesUploaded := filesUploaded a;
         reportsGenerated := increment (reportsGenerated a) |}
  end.

(** The counter that a kind of activity counts. *)
Definition counter (kind : ActivityKind) (a : ActivityStats) : Z :=
  match kind with
  | act_chat => totalChats a
  | act_file => filesUploaded a
  | act_report => reportsGenerated a
  end.

(** [user.activityStats || { totalChats: 0, filesUploaded: 0, reportsGenerated: 0 }],
    the statistics that [updateActivityStats] counts from. *)
Definition stats_or_zero (a : option ActivityStats) : ActivityStats :=
  match a with
  | Some a => a
  | None => {| totalChats := 0; filesUploaded := 0; reportsGenerated := 0 |}
  end.

(** The value of a property after [Object.assign]: the source's when it has
    the property, the target's otherwise. *)
Definition assigned {A} (new : option A) (old : A) : A :=
  match new with Some v => v | None => old end.

Definition assigned_opt {A} (new : option A) (old : option A) : option A :=
  match new with Some v => Some v | None => old end.

(** [Object.assign(user, updates)]. *)
Definition Object_assign (u : StoredUser) (updates : UserProfileUpdates) : StoredUser :=
  {| user := {| id := assigned (upd_id updates) (id (user u));
                fullName := assigned (upd_fullName updates) (fullName (user u));
                email := assigned (upd_email updates) (email (user u));
                mobile := assigned (upd_mobile updates) (mobile (user u));
                isAuthenticated := isAuthenticated (user u);
                registrationDate :=
                  assigned (upd_registrationDate updates) (registrationDate (user u));
                membershipType :=
                  assigned (upd_membershipType updates) (membershipType (user u));
                preferredRole :=
                  assigned_opt (upd_preferredRole updates) (preferredRole (user u));
                profilePicture :=
                  assigned_opt (upd_profilePicture updates) (profilePicture (user u));
                lastLoginDate :=
                  assigned_opt (upd_lastLoginDate updates) (lastLoginDate (user u));
                activityStats :=
                  assigned_opt (upd_activityStats updates) (activityStats (user u)) |};
     hashedPassword := hashedPassword u;
     settings := assigned_opt (upd_settings updates) (settings u) |}.

(** The object literal that [login], [getCurrentUser] and [updateProfile]
    return: the stored user without its digest, [isAuthenticated] set. *)
Definition public_user (u : StoredUser) : User :=
  {| id := id (user u); fullName := fullName (user u);
     email := email (user u); mobile := mobile (user u);
     isAuthenticated := true;
     registrationDate := registrationDate (user u);
     membershipType := membershipType (user u);
     preferredRole := preferredRole (user u);
     profilePicture := profilePicture (user u);
     lastLoginDate := lastLoginDate (user u);
     activityStats := activityStats (user u) |}.

(** ** loadUsers and saveUsers *)

(** One round of the [forEach] of [loadUsers]: the parsed object is a new
    object, set under its email and then under its mobile number. *)
Definition load_user (hm : list StoredUser * list (string * nat)) (u : StoredUser)
  : list StoredUser * list (string * nat) :=
  let l := length (fst hm) in
  (fst hm ++ [u], map_set (mobile (user u)) l (map_set (email (user u)) l (snd hm))).

Definition stored_users (st : State) : list StoredUser :=
  match fortas_users st with Some a => a | None => [] end.

Definition loadUsers (st : State) : State :=
  let hm := fold_left load_user (stored_users st) (heap st, users st) in
  with_store (fst hm) (snd hm) st.

(** [Array.from(this.users.values())], the objects themselves. *)
Definition users_values (st : State) : list StoredUser :=
  omap (fun l => heap st !! l) (map_values (users st)).

(** [u => u.id === user.id], the predicate of the [findIndex] in [saveUsers]. *)
Definition same_id (user0 u : StoredUser) : bool :=
  String.eqb (id (user u)) (id (user user0)).

(** The [filter] of [saveUsers]: an object is kept when it is the first of the
    array with its id. *)
Definition first_of_its_id (arr : list StoredUser) : list StoredUser :=
  filter_indexed (fun user0 index => findIndex (same_id user0) arr =? index) 0 arr.

Definition saveUsers (st : State) : State :=
  with_fortas_users (first_of_its_id (users_values st)) st.

(** What [login], [resetPassword] and [updateProfile] do once they hold the
    object at address [l]: they mutate it, which leaves [u] there, and call
    [saveUsers]. *)
Definition mutate_and_save (l : nat) (u : StoredUser) (st : State) : State :=
  saveUsers (with_heap (<[l := u]> (heap st)) st).

(** [this.users.get(key)], dereferenced. *)
Definition users_get (key : string) (st : State) : option StoredUser :=
  match map_get key (users st) with
  | Some l => heap st !! l
  | None => None
  end.

(** [([_, user]) => user.id === userId], on an entry of the map. *)
Definition has_id (userId : string) (h : list StoredUser) (e : string * nat) : bool :=
  match h !! snd e with
  | Some u => String.eqb (id (user u)) userId
  | None => false
  end.

(** [Array.from(this.users.entries()).find(([_, user]) => user.id === userId)]. *)
Definition find_entry_by_id (userId : string) (st : State) : option (string * nat) :=
  List.find (has_id userId (heap st)) (users st).

(** How the service resolves a key: every operation that looks a user up
    calls [loadUsers] and then reads the map. *)
Definition findByKey (key : string) (st : State) : option StoredUser :=
  users_get key (loadUsers st).

(** [u] is stored under [k] by [loadUsers]. *)
Definition has_key (k : string) (u : StoredUser) : bool :=
  String.eqb k (email (user u)) || String.eqb k (mobile (user u)).

(** The last user of the array stored under [k], or [acc] when there is none:
    what [k] resolves to after the [forEach] of [loadUsers]. *)
Fixpoint last_with_key (k : string) (us : list StoredUser) (acc : option StoredUser)
  : option StoredUser :=
  match us with
  | [] => acc
  | u :: us' => last_with_key k us' (if has_key k u then Some u else acc)
  end.

(** Every address held by [users] is an address of the heap. *)
Definition wf_state (st : State) : Prop :=
  Forall (fun e => (snd e < length (heap st))%nat) (users st).

(** No record of another user than [uid] is stored under [k]. *)
Definition key_free_for (uid k : string) (st : State) : bool :=
  forallb (fun u => String.eqb (id (user u)) uid || negb (has_key k u)) (users_values st).

(** The object at an optional address. *)
Definition deref (h : list StoredUser) (a : option nat) : option StoredUser :=
  match a with Some l => h !! l | None => None end.

(** ** PasswordUtils and AuthService *)

Section AuthService.

(** [crypto.subtle.digest('SHA-256', data)], a primitive of the platform. *)
Variable sha256 : list byte -> list byte.

(** [TextEncoder.encode]: a string is held as the bytes of its UTF-8 text. *)
Definition encode (s : string) : list byte := list_byte_of_string s.

Definition hashPassword (password : string) : string :=
  let data := encode (password +:+ "salt_key_2024") in
  let hashArray := sha256 data in
  String.concat "" (map hex2 hashArray).

Definition verifyPassword (password hashedPassword : string) : bool :=
  let hashedInput := hashPassword password in
  String.eqb hashedInput hashedPassword.

(** [Math.floor(100000 + Math.random() * 900000).toString()]; [draw] is the
    value of [Math.random()], counted in units of 2^-1074, and so are the
    product and the sum, each rounded as binary64 arithmetic rounds it.
    [Math.floor] is exact. *)
Definition generateOTP (draw : Z) : string :=
  let product := round_binary64 (draw * 900000) in
  let sum := round_binary64 (100000 * binary64_one + product) in
  toString (sum / binary64_one).

(** [Math.random().toString(36).substring(2) + Date.now().toString(36)];
    [rnd] is the first summand. *)
Definition generateSessionToken (rnd : string) (now : Z) : string :=
  rnd +:+ toString36 now.

Definition sendOTP (identifier : string) (type : OTPType) (draw now : Z) (st : State)
  : OTPResponse * State :=
  let otp := generateOTP draw in
  let expires := now + 300000 in
  let st' :=
    with_otpStore
      (<[identifier := {| entry_otp := otp; entry_expires := expires; entry_type := type |}]>
         (otpStore st)) st in
  ({| success := true;
      message := "OTP sent to " +:+ identifier;
      otpSent := Some true;
      otp := Some otp |}, st').

Definition verifyOTP (identifier otp : string) (type : OTPType) (now : Z) (st : State)
  : bool * State :=
  match otpStore st !! identifier with
  | None => (false, st)
  | Some stored =>
      if negb (OTPType_eqb (entry_type stored) type) then (false, st)
      else if now >? entry_expires stored then
        (false, with_otpStore (delete identifier (otpStore st)) st)
      else if String.eqb (entry_otp stored) otp then
        (true, with_otpStore (delete identifier (otpStore st)) st)
      else (false, st)
  end.

Definition register (userData : RegisterData) (now : Z) (st : State)
  : Completion User * State :=
  let st1 := loadUsers st in
  if map_has (reg_email userData) (users st1) || map_has (reg_mobile userData) (users st1)
  then (Thrown (JsError "User already exists with this email or mobile number"), st1)
  else
    let userId := "user_" +:+ toString now in
    let hashedPassword := hashPassword (reg_password userData) in
    let user :=
      {| id := userId;
         fullName := reg_fullName userData;
         email := reg_email userData;
         mobile := reg_mobile userData;
         isAuthenticated := true;
         registrationDate := now;
         membershipType := Free;
         lastLoginDate := Some now;
         preferredRole := None;
         profilePicture := None;
         activityStats :=
           Some {| totalChats := 0; filesUploaded := 0; reportsGenerated := 0 |} |} in
    let userWithPassword :=
      {| user := user; hashedPassword := hashedPassword; settings := None |} in
    let l := length (heap st1) in
    let st2 :=
      with_store (heap st1 ++ [userWithPassword])
        (map_set (reg_mobile userData) l (map_set (reg_email userData) l (users st1)))
        st1 in
    (Returned user, saveUsers st2).

(** [login], with the binding of the identifier [rememberMe] in its scope as
    an argument: [Some b] when the identifier evaluates to [b], [None] when
    nothing declares it.  The body reads [rememberMe] after the call of
    [generateSessionToken]; evaluating an identifier without a binding throws
    a [ReferenceError].  ([users.get] gives an object or [undefined]; an
    address outside the heap, which no well-formed state has, is read as
    [undefined] here and in the functions below.) *)
Definition login_in_scope (scope_rememberMe : option bool)
    (credentials : LoginData) (rnd : string) (now : Z) (st : State)
  : Completion (option User) * State :=
  let st1 := loadUsers st in
  match map_get (emailOrMobile credentials) (users st1) with
  | None => (Returned None, st1)
  | Some l =>
      match heap st1 !! l with
      | None => (Returned None, st1)
      | Some user0 =>
          let isValidPassword := verifyPassword (password credentials) (hashedPassword user0) in
          if negb isValidPassword then (Returned None, st1)
          else
            let st2 := saveUsers (with_heap (<[l := set_lastLoginDate now user0]> (heap st1)) st1) in
            let sessionToken := generateSessionToken rnd now in
            match scope_rememberMe with
            | None => (Thrown (ReferenceError "rememberMe"), st2)
            | Some rememberMe =>
                let sessionExpiry :=
                  if rememberMe then now + 30 * 24 * 60 * 60 * 1000
                  else now + 24 * 60 * 60 * 1000 in
                let user1 := set_lastLoginDate now user0 in
                (Returned (Some (public_user user1)),
                 with_session sessionToken
                   {| userId := id (user user1); expires := sessionExpiry |} st2)
            end
      end
  end.

(** [AuthService.login(credentials: LoginData)]: [credentials] is the only
    parameter, [LoginData] has no [rememberMe] and the module declares none. *)
Definition login (credentials : LoginData) (rnd : string) (now : Z) (st : State)
  : Completion (option User) * State :=
  login_in_scope None credentials rnd now st.

Definition resetPassword (resetData : PasswordResetData) (now : Z) (st : State)
  : bool * State :=
  let st1 := loadUsers st in
  match map_get (reset_email resetData) (users st1) with
  | None => (false, st1)
  | Some l =>
      match heap st1 !! l with
      | None => (false, st1)
      | Some user0 =>
          let '(isValidOTP, st2) :=
            verifyOTP (reset_email resetData) (reset_otp resetData) otp_reset now st1 in
          if negb isValidOTP then (false, st2)
          else
            let user1 := set_hashedPassword (hashPassword (reset_newPassword resetData)) user0 in
            (true, saveUsers (with_heap (<[l := user1]> (heap st2)) st2))
      end
  end.

Definition updateProfile (userId : string) (updates : UserProfileUpdates) (st : State)
  : option User * State :=
  let st1 := loadUsers st in
  match find_entry_by_id userId st1 with
  | None => (None, st1)
  | Some (key, l) =>
      match heap st1 !! l with
      | None => (None, st1)
      | Some user0 =>
          let user1 := Object_assign user0 updates in
          (Some (public_user user1),
           saveUsers (with_heap (<[l := user1]> (heap st1)) st1))
      end
  end.

(** [if (!sessionToken)]: [null] and the empty string are both falsy. *)
Definition truthy_token (t : option string) : option string :=
  match t with
  | Some "" => None
  | other => other
  end.

Definition isSessionValid (now : Z) (st : State) : bool :=
  match truthy_token (fortas_session_token st) with
  | None => false
  | Some sessionToken =>
      match sessions st !! sessionToken with
      | Some session => now <? expires session
      | None => false
      end
  end.

Definition logout (st : State) : State :=
  {| heap := heap st; users := users st; otpStore := otpStore st;
     sessions :=
       match truthy_token (fortas_session_token st) with
       | Some sessionToken => delete sessionToken (sessions st)
       | None => sessions st
       end;
     fortas_users := fortas_users st;
     fortas_session_token := None |}.

Definition getCurrentUser (now : Z) (st : State) : option User * State :=
  match truthy_token (fortas_session_token st) with
  | None => (None, st)
  | Some sessionToken =>
      match sessions st !! sessionToken with
      | None => (None, logout st)
      | Some session =>
          if now >? expires session then (None, logout st)
          else
            let st1 := loadUsers st in
            match List.find (fun u => String.eqb (id (user u)) (userId session))
                            (users_values st1) with
            | None => (None, st1)
            | Some user0 => (Some (public_user user0), st1)
            end
      end
  end.

Definition updateActivityStats (userId : string) (type : ActivityKind) (st : State)
  : State :=
  let st1 := loadUsers st in
  match find_entry_by_id userId st1 with
  | None => st1
  | Some (key, l) =>
      match heap st1 !! l with
      | None => st1
      | Some user0 =>
          let stats0 :=
            match activityStats (user user0) with
            | Some a => a
            | None => {| totalChats := 0; filesUploaded := 0; reportsGenerated := 0 |}
            end in
          let user1 := set_activityStats (bump_stats type stats0) user0 in
          saveUsers (with_heap (<[l := user1]> (heap st1)) st1)
      end
  end.

Definition upgradeToPremium (userId : string) (st : State) : bool * State :=
  let st1 := loadUsers st in
  match find_entry_by_id userId st1 with
  | None => (false, st1)
  | Some (key, l) =>
      match heap st1 !! l with
      | None => (false, st1)
      | Some user0 =>
          (true, saveUsers (with_heap (<[l := set_membershipType Premium user0]> (heap st1)) st1))
      end
  end.

End AuthService.

(** ** contexts/AuthContext.tsx

    The state of the provider and the handlers it exposes; a handler takes
    the state of the provider and of the service and gives its result with
    both states after the [setAuthState] calls it made. *)

(** [{ ...authState.user, membershipType: 'Premium' as const }], the user that
    the [upgradeToPremium] handler puts in the state of the provider. *)
Definition as_premium (u : User) : User :=
  {| id := id u; fullName := fullName u; email := email u; mobile := mobile u;
     isAuthenticated := isAuthenticated u;
     registrationDate := registrationDate u;
     membershipType := Premium;
     preferredRole := preferredRole u; profilePicture := profilePicture u;
     lastLoginDate := lastLoginDate u; activityStats := activityStats u |}.

Module AuthContext.

(** The functions of [AuthService] that the handlers of the same name call. *)
Local Abbreviation AuthService_login := login.
Local Abbreviation AuthService_updateProfile := updateProfile.
Local Abbreviation AuthService_upgradeToPremium := upgradeToPremium.

Record AuthState : Type := {
  user : option User;
  isAuthenticated : bool;
  isLoading : bool;
  error : option string
}.

(** [setAuthState(prev => ({ ...prev, isLoading: true, error: null }))]. *)
Definition start_loading (prev : AuthState) : AuthState :=
  {| user := user prev; isAuthenticated := isAuthenticated prev;
     isLoading := true; error := None |}.

(** [setAuthState(prev => ({ ...prev, isLoading: false, error: msg }))]. *)
Definition fail_with (msg : string) (prev : AuthState) : AuthState :=
  {| user := user prev; isAuthenticated := isAuthenticated prev;
     isLoading := false; error := Some msg |}.

(** [setAuthState(prev => ({ ...prev, user: u, isLoading: false }))]. *)
Definition done_with (u : User) (prev : AuthState) : AuthState :=
  {| user := Some u; isAuthenticated := isAuthenticated prev;
     isLoading := false; error := error prev |}.

(** [login(credentials, rememberMe = false)]; the handler does not pass its
    second parameter on to the service. *)
Definition login (sha256 : list byte -> list byte) (credentials : LoginData)
    (rememberMe : bool) (rnd : string) (now : Z) (authState : AuthState) (st : State)
  : bool * AuthState * State :=
  let authState1 := start_loading authState in
  match AuthService_login sha256 credentials rnd now st with
  | (Returned (Some u), st') =>
      (true,
       {| user := Some u; isAuthenticated := true; isLoading := false; error := None |},
       st')
  | (Returned None, st') => (false, fail_with "Invalid credentials" authState1, st')
  | (Thrown _, st') => (false, fail_with "Login failed. Please try again." authState1, st')
  end.

(** [updateProfile(updates)]; the service function does not throw, the
    [catch] of the handler is not reached. *)
Definition updateProfile (updates : UserProfileUpdates) (authState : AuthState) (st : State)
  : bool * AuthState * State :=
  match user authState with
  | None => (false, authState, st)
  | Some u =>
      let authState1 := start_loading authState in
      match AuthService_updateProfile (id u) updates st with
      | (Some updatedUser, st') => (true, done_with updatedUser authState1, st')
      | (None, st') => (false, authState1, st')
      end
  end.

(** [upgradeToPremium()]; as for [updateProfile], the [catch] is not reached. *)
Definition upgradeToPremium (authState : AuthState) (st : State)
  : bool * AuthState * State :=
  match user authState with
  | None => (false, authState, st)
  | Some u =>
      let authState1 := start_loading authState in
      match AuthService_upgradeToPremium (id u) st with
      | (true, st') => (true, done_with (as_premium u) authState1, st')
      | (false, st') => (false, authState1, st')
      end
  end.

End AuthContext.

(** ** components/ChatInput.tsx and utils/gemini.ts: which files go where *)

Module Files.

(** The properties of a [File] and of a [FileUpload] that the checks read. *)
Record File : Type := {
  name : string;
  type : string;
  size : Z
}.

(** [s.startsWith(p)] and [s.includes(sub)]. *)
Definition startsWith (p s : string) : bool := String.prefix p s.

Definition includes (sub s : string) : bool :=
  match String.index 0 sub s with
  | Some _ => true
  | None => false
  end.

(** The predicate of the [filter] in [handleFiles] of ChatInput. *)
Definition isValidFile (file : File) : bool :=
  let isValidType :=
    startsWith "image/" (type file)
    || String.eqb (type file) "application/pdf"
    || includes "spreadsheet" (type file)
    || includes "excel" (type file) in
  let isValidSize := size file <=? 10 * 1024 * 1024 in
  isValidType && isValidSize.

(** [handleFiles]: the files handed to [onFileUpload], or nothing when the
    user may not upload or no file is valid. *)
Definition handleFiles (canUploadFiles : bool) (files : list File) : option (list File) :=
  if negb canUploadFiles then None
  else
    let validFiles := List.filter isValidFile files in
    match validFiles with
    | [] => None
    | _ => Some validFiles
    end.

(** The test of the loop over the files in [generateResponse] of gemini. *)
Definition isSent (file : File) : bool :=
  startsWith "image/" (type file) || String.eqb (type file) "application/pdf".

(** The files that [generateResponse] turns into parts of the request. *)
Definition sentParts (files : list File) : list File := List.filter isSent files.

End Files.

(** ** Calls of the service

    The operations of [AuthService] as a datatype, with the arguments and
    the clock and random draws they consume, to speak of sequences of calls. *)

Inductive Call : Type :=
  | CallSendOTP (identifier : string) (type : OTPType) (draw now : Z)
  | CallVerifyOTP (identifier otp : string) (type : OTPType) (now : Z)
  | CallRegister (userData : RegisterData) (now : Z)
  | CallLogin (credentials : LoginData) (rnd : string) (now : Z)
  | CallResetPassword (resetData : PasswordResetData) (now : Z)
  | CallGetCurrentUser (now : Z)
  | CallUpdateProfile (userId : string) (updates : UserProfileUpdates)
  | CallUpdateActivityStats (userId : string) (type : ActivityKind)
  | CallUpgradeToPremium (userId : string)
  | CallLogout.

(** The state that a call leaves. *)
Definition run (sha256 : list byte -> list byte) (st : State) (c : Call) : State :=
  match c with
  | CallSendOTP identifier type draw now => snd (sendOTP identifier type draw now st)
  | CallVerifyOTP identifier otp type now => snd (verifyOTP identifier otp type now st)
  | CallRegister userData now => snd (register sha256 userData now st)
  | CallLogin credentials rnd now => snd (login sha256 credentials rnd now st)
  | CallResetPassword resetData now => snd (resetPassword sha256 resetData now st)
  | CallGetCurrentUser now => snd (getCurrentUser now st)
  | CallUpdateProfile userId updates => snd (updateProfile userId updates st)
  | CallUpdateActivityStats userId type => updateActivityStats userId type st
  | CallUpgradeToPremium userId => snd (upgradeToPremium userId st)
  | CallLogout => logout st
  end.

Definition run_all (sha256 : list byte -> list byte) (st : State) (cs : list Call) : State :=
  fold_left (run sha256) cs st.

(** No object of the map has [k] as its email or mobile number. *)
Definition key_unused (k : string) (st : State) : bool :=
  forallb (fun u => negb (has_key k u)) (users_values st).

(** No object of the map has the id [uid]. *)
Definition id_unused (uid : string) (st : State) : bool :=
  forallb (fun u => negb (String.eqb (id (user u)) uid)) (users_values st).

(** The object under [k] is the first of its id in the map: the one that
    the operations addressed by id find, and that [saveUsers] keeps. *)
Definition first_of_id_under (k : string) (uid : string) (st : State) : Prop :=
  snd <$> find_entry_by_id uid st = map_get k (users st)
  /\ is_Some (map_get k (users st)).

(** The record that [updateActivityStats] leaves: the counter of the kind
    one higher, counted from zero when the user had no statistics. *)
Definition counted (kind : ActivityKind) (r : StoredUser) : StoredUser :=
  set_activityStats
    (bump_stats kind
       (match activityStats (user r) with
        | Some a => a
        | None => {| totalChats := 0; filesUploaded := 0; reportsGenerated := 0 |}
        end)) r.

(** The object that [register] stores, and the user that it returns. *)
Definition new_user (userData : RegisterData) (now : Z) : User :=
  {| id := "user_" +:+ toString now;
     fullName := reg_fullName userData;
     email := reg_email userData;
     mobile := reg_mobile userData;
     isAuthenticated := true;
     registrationDate := now;
     membershipType := Free;
     lastLoginDate := Some now;
     preferredRole := None;
     profilePicture := None;
     activityStats :=
       Some {| totalChats := 0; filesUploaded := 0; reportsGenerated := 0 |} |}.

Definition new_stored_user (sha256 : list byte -> list byte) (userData : RegisterData)
    (now : Z) : StoredUser :=
  {| user := new_user userData now;
     hashedPassword := hashPassword sha256 (reg_password userData);
     settings := None |}.

(** The state that a successful [register] saves: the new object is on
    the heap, under its email and its mobile number. *)
Definition registering (sha256 : list byte -> list byte) (userData : RegisterData)
    (now : Z) (st1 : State) : State :=
  with_store (heap st1 ++ [new_stored_user sha256 userData now])
    (map_set (reg_mobile userData) (length (heap st1))
       (map_set (reg_email userData) (length (heap st1)) (users st1)))
    st1.

(** [k] is a key of the map once the users are loaded. *)
Definition loaded_key (k : string) (st : State) : Prop :=
  is_Some (map_get k (users (loadUsers st))).

(** The decimal numeral [d] with the digit [k] put in front. *)
Definition digit (k : N) (d : Decimal.uint) : Decimal.uint :=
  match k with
  | 0 => Decimal.D0 d | 1 => Decimal.D1 d | 2 => Decimal.D2 d | 3 => Decimal.D3 d
  | 4 => Decimal.D4 d | 5 => Decimal.D5 d | 6 => Decimal.D6 d | 7 => Decimal.D7 d
  | 8 => Decimal.D8 d | _ => Decimal.D9 d
  end%N.

(** The characters ['0'] to ['9']. *)
Definition is_digit (c : ascii) : bool :=
  (48 <=? nat_of_ascii c)%nat && (nat_of_ascii c <=? 57)%nat.

Fixpoint all_digits (s : string) : bool :=
  match s with
  | EmptyString => true
  | String c s' => is_digit c && all_digits s'
  end.

(** Reading hexadecimal text back, two characters to a byte: the inverse of
    the [map] and [join] of [hashPassword]. *)
Definition hex_value (c : ascii) : option N :=
  let n := N_of_ascii c in
  if ((48 <=? n) && (n <=? 57))%N then Some (n - 48)%N
  else if ((97 <=? n) && (n <=? 102))%N then Some (n - 87)%N
  else None.

Fixpoint unhex (s : string) : option (list byte) :=
  match s with
  | EmptyString => Some []
  | String a EmptyString => None
  | String a (String b s') =>
      match hex_value a, hex_value b with
      | Some x, Some y =>
          match Byte.of_N (16 * x + y) with
          | Some byte0 => cons byte0 <$> unhex s'
          | None => None
          end
      | _, _ => None
      end
  end.

(** ** Sample data

    A stand-in for the digest primitive (the bytes themselves) and the
    scenario of the specification, used to run the model. *)

Definition sample_digest (data : list byte) : list byte := data.

Definition asha : RegisterData :=
  {| reg_fullName := "Asha"; reg_email := "a@x.com";
     reg_mobile := "9990001111"; reg_password := "pw1" |}.

Definition change_email (e : string) : UserProfileUpdates :=
  {| upd_id := None; upd_fullName := None; upd_email := Some e; upd_mobile := None;
     upd_membershipType := None; upd_preferredRole := None;
     upd_profilePicture := None; upd_registrationDate := None;
     upd_lastLoginDate := None; upd_activityStats := None; upd_settings := None |}.

(** The state after [register(asha)] at time 1000 on a fresh page. *)
Definition asha_registered : State :=
  snd (register sample_digest asha 1000 initial_state).

(** The object that [register(asha)] stores. *)
Definition asha_stored : StoredUser :=
  {| user :=
       {| id := "user_1000"; fullName := "Asha"; email := "a@x.com";
          mobile := "9990001111"; isAuthenticated := true;
          registrationDate := 1000; membershipType := Free;
          preferredRole := None; profilePicture := None;
          lastLoginDate := Some 1000;
          activityStats :=
            Some {| totalChats := 0; filesUploaded := 0; reportsGenerated := 0 |} |};
     hashedPassword := hashPassword sample_digest "pw1";
     settings := None |}.

(** The state after the registered user has changed her email. *)
Definition asha_moved : State :=
  snd (updateProfile "user_1000" (change_email "b@x.com") asha_registered).

(** A second registration, made in the same millisecond as the first. *)
Definition binu : RegisterData :=
  {| reg_fullName := "Binu"; reg_email := "b@y.org";
     reg_mobile := "8880002222"; reg_password := "pw9" |}.

(** The state of a page that holds a session for the registered user,
    expiring at time 90000. *)
Definition asha_in_session : State :=
  with_session "k3x9s" {| userId := "user_1000"; expires := 90000 |} asha_registered.

(** The provider holding the registered user, and holding a user that the
    store does not have. *)
Definition asha_provider : AuthContext.AuthState :=
  {| AuthContext.user := Some (new_user asha 1000);
     AuthContext.isAuthenticated := true;
     AuthContext.isLoading := false;
     AuthContext.error := None |}.

Definition stranger_provider : AuthContext.AuthState :=
  {| AuthContext.user := Some (new_user binu 7);
     AuthContext.isAuthenticated := true;
     AuthContext.isLoading := false;
     AuthContext.error := None |}.

(** Three files dropped on the input: a picture, a workbook, and a PDF over
    the size limit. *)
Definition dropped_files : list Files.File :=
  [ {| Files.name := "kiln.png"; Files.type := "image/png"; Files.size := 204800 |};
    {| Files.name := "costs.xls"; Files.type := "application/vnd.ms-excel";
       Files.size := 51200 |};
    {| Files.name := "manual.pdf"; Files.type := "application/pdf";
       Files.size := 10485761 |} ].

(** ** Numbers: the rounding of binary64 arithmetic *)

Section Numbers.

Lemma round_binary64_small (x : Z) : Z.abs x < 2 ^ 53 -> round_binary64 x = x.
Proof.
  intros Hx. unfold round_binary64.
  destruct (Z.ltb_spec (Z.abs x) (2 ^ 53)); [done|lia].
Qed.

(** The rounding of a large positive integer: the spacing is [2 ^ e] for
    [e = log2 x - 52], and the result is binary64_one of the two multiples of the
    spacing around [x], the lower binary64_one below the middle. *)
Lemma round_binary64_large (x : Z) :
  2 ^ 53 <= x ->
  let e := Z.log2 x - 52 in
  let p := 2 ^ e in
  let h := 2 ^ (e - 1) in
  1 <= e /\ p = 2 * h /\ 0 < h /\ 2 ^ 52 * p <= x < 2 ^ 53 * p
  /\ exists k, round_binary64 x = k * p
               /\ (k = x / p \/ k = x / p + 1)
               /\ (x mod p < h -> k = x / p)
               /\ (h < x mod p -> k = x / p + 1).
Proof.
  intros Hx e p h.
  assert (0 < x) as Hpos by lia.
  pose proof (Z.log2_spec x Hpos) as Hlog.
  assert (53 <= Z.log2 x) as H53.
  { apply Z.log2_le_pow2; lia. }
  assert (1 <= e) as He by (subst e; lia).
  assert (p = 2 * h) as Hp.
  { subst p h. replace e with (1 + (e - 1)) at 1 by lia.
    rewrite Z.pow_add_r by lia. reflexivity. }
  assert (0 < h) as Hh by (subst h; apply Z.pow_pos_nonneg; lia).
  assert (2 ^ Z.log2 x = 2 ^ 52 * p) as E1.
  { subst p e. rewrite <- Z.pow_add_r by lia. f_equal. lia. }
  assert (2 ^ Z.succ (Z.log2 x) = 2 ^ 53 * p) as E2.
  { subst p e. rewrite <- Z.pow_add_r by lia. f_equal. lia. }
  rewrite E1, E2 in Hlog.
  split; [done|]. split; [done|]. split; [done|]. split; [done|].
  unfold round_binary64. rewrite (Z.abs_eq x) by lia.
  destruct (Z.ltb_spec x (2 ^ 53)); [lia|].
  cbn zeta. fold e. fold p. fold h.
  destruct (Z.ltb_spec (x mod p) h).
  { exists (x / p). repeat split; auto; lia. }
  destruct (Z.ltb_spec h (x mod p)).
  { exists (x / p + 1). repeat split; auto; lia. }
  destruct (Z.even (x / p)).
  - exists (x / p). repeat split; auto; lia.
  - exists (x / p + 1). repeat split; auto; lia.
Qed.

Lemma round_binary64_le (x k : Z) :
  2 ^ 53 <= x -> x <= k * 2 ^ (Z.log2 x - 52) ->
  round_binary64 x <= k * 2 ^ (Z.log2 x - 52).
Proof.
  intros Hx Hk.
  destruct (round_binary64_large x Hx) as (He & Hp & Hh & Hb & k' & -> & Hk' & Hlow & _).
  set (p := 2 ^ (Z.log2 x - 52)) in *. set (h := 2 ^ (Z.log2 x - 52 - 1)) in *.
  assert (0 < p) by lia.
  pose proof (Z.div_mod x p ltac:(lia)) as Hdm.
  pose proof (Z.mod_pos_bound x p ltac:(lia)) as Hm.
  assert (x / p <= k) by nia.
  destruct (Z.eq_dec (x / p) k) as [Heq|Hne].
  - assert (x mod p = 0) by nia. rewrite Hlow by lia. nia.
  - assert (k' <= k) by lia. nia.
Qed.

Lemma round_binary64_ge (x k : Z) :
  2 ^ 53 <= x -> k * 2 ^ (Z.log2 x - 52) <= x ->
  k * 2 ^ (Z.log2 x - 52) <= round_binary64 x.
Proof.
  intros Hx Hk.
  destruct (round_binary64_large x Hx) as (He & Hp & Hh & Hb & k' & -> & Hk' & _).
  set (p := 2 ^ (Z.log2 x - 52)) in *. set (h := 2 ^ (Z.log2 x - 52 - 1)) in *.
  assert (0 < p) by lia.
  pose proof (Z.div_mod x p ltac:(lia)) as Hdm.
  pose proof (Z.mod_pos_bound x p ltac:(lia)) as Hm.
  assert (k <= x / p) by nia.
  assert (k <= k') by lia. nia.
Qed.

Lemma round_binary64_below_middle (x k : Z) :
  2 ^ 53 <= x ->
  x < k * 2 ^ (Z.log2 x - 52) + 2 ^ (Z.log2 x - 52 - 1) ->
  round_binary64 x <= k * 2 ^ (Z.log2 x - 52).
Proof.
  intros Hx Hk.
  destruct (round_binary64_large x Hx) as (He & Hp & Hh & Hb & k' & -> & Hk' & Hlow & _).
  set (p := 2 ^ (Z.log2 x - 52)) in *. set (h := 2 ^ (Z.log2 x - 52 - 1)) in *.
  assert (0 < p) by lia.
  pose proof (Z.div_mod x p ltac:(lia)) as Hdm.
  pose proof (Z.mod_pos_bound x p ltac:(lia)) as Hm.
  assert (x / p <= k) by nia.
  destruct (Z.eq_dec (x / p) k) as [Heq|Hne].
  - assert (x mod p < h) by nia. rewrite Hlow by lia. nia.
  - assert (k' <= k) by lia. nia.
Qed.

Lemma pow2_split (e n : Z) : 0 <= e <= n -> 2 ^ n = 2 ^ (n - e) * 2 ^ e.
Proof. intros He. rewrite <- Z.pow_add_r by lia. f_equal. lia. Qed.

Lemma log2_below (x n : Z) : 0 < x -> x < 2 ^ (n + 1) -> 0 <= n -> Z.log2 x <= n.
Proof.
  intros Hx Hlt Hn.
  assert (Z.log2 x < n + 1); [|lia]. apply Z.log2_lt_pow2; lia.
Qed.

Lemma round_binary64_opp (x : Z) : round_binary64 (- x) = - round_binary64 x.
Proof.
  unfold round_binary64. rewrite Z.abs_opp.
  destruct (Z.ltb_spec (Z.abs x) (2 ^ 53)) as [|Hbig]; [done|].
  cbn zeta.
  assert (53 <= Z.log2 (Z.abs x)) as Hlog by (apply Z.log2_le_pow2; lia).
  set (e := Z.log2 (Z.abs x) - 52).
  assert (2 ^ e = 2 * 2 ^ (e - 1)) as Hp.
  { replace e with (1 + (e - 1)) at 1 by lia. rewrite Z.pow_add_r by lia. reflexivity. }
  assert (0 < 2 ^ (e - 1)) as Hh by (apply Z.pow_pos_nonneg; lia).
  set (p := 2 ^ e) in *. set (h := 2 ^ (e - 1)) in *. clearbody p h.
  pose proof (Z.div_mod x p ltac:(lia)) as Hx.
  pose proof (Z.mod_pos_bound x p ltac:(lia)) as Hxm.
  pose proof (Z.div_mod (- x) p ltac:(lia)) as Hy.
  pose proof (Z.mod_pos_bound (- x) p ltac:(lia)) as Hym.
  set (q := x / p) in *. set (r := x mod p) in *.
  set (q' := - x / p) in *. set (r' := - x mod p) in *.
  clearbody q r q' r'.
  assert (-2 < q + q' < 1) as Hs by nia.
  assert ((r = 0 /\ r' = 0 /\ q' = - q) \/ (0 < r /\ r' = p - r /\ q' = - q - 1))
    as [(Hr & Hr' & Hq)|(Hr & Hr' & Hq)].
  { assert (q' = - q \/ q' = - q - 1) as [->| ->] by lia; [left|right]; nia. }
  - rewrite Hr, Hr', Hq, Z.even_opp.
    destruct (Z.ltb_spec 0 h); [ring|lia].
  - assert (Z.even q' = negb (Z.even q)) as Heven.
    { rewrite Hq. replace (- q - 1) with (- (q + 1)) by lia.
      rewrite Z.even_opp, Z.add_1_r, Z.even_succ. symmetry. apply Z.negb_even. }
    rewrite Heven.
    destruct (Z.ltb_spec r h), (Z.ltb_spec h r), (Z.ltb_spec r' h), (Z.ltb_spec h r'),
      (Z.even q); simpl; try lia; rewrite Hq; ring.
Qed.

Lemma binary64_opp (y : Z) : binary64 y -> binary64 (- y).
Proof.
  intros (m & e & He & Hm & ->). exists (- m), e.
  split; [done|]. split; [by rewrite Z.abs_opp|ring].
Qed.

Lemma round_binary64_is_binary64 (x : Z) : binary64 (round_binary64 x).
Proof.
  assert (forall x, 0 <= x -> binary64 (round_binary64 x)) as Hpos.
  { clear x. intros x Hx.
    destruct (Z.lt_ge_cases x (2 ^ 53)) as [Hsmall|Hbig].
    { rewrite round_binary64_small by lia. exists x, 0.
      split; [done|]. split; [lia|]. change (2 ^ 0) with 1. ring. }
    destruct (round_binary64_large x Hbig)
      as (He & Hp & Hh & Hb & k & -> & Hk & _).
    set (e := Z.log2 x - 52) in *. set (p := 2 ^ e) in *.
    set (h := 2 ^ (e - 1)) in *.
    pose proof (Z.div_mod x p ltac:(lia)) as Hdm.
    pose proof (Z.mod_pos_bound x p ltac:(lia)) as Hm.
    assert (2 ^ 52 <= x / p < 2 ^ 53) as Hq by nia.
    destruct (Z.eq_dec k (2 ^ 53)) as [->|Hne].
    - exists (2 ^ 52), (e + 1). split; [lia|]. split; [lia|].
      rewrite Z.pow_add_r by lia. fold p. change (2 ^ 53) with (2 ^ 52 * 2).
      change (2 ^ 1) with 2. ring.
    - exists k, e. split; [lia|]. split; [lia|done]. }
  destruct (Z.le_gt_cases 0 x) as [Hx|Hx]; [by apply Hpos|].
  replace x with (- - x) by lia. rewrite round_binary64_opp.
  apply binary64_opp, Hpos. lia.
Qed.

Lemma round_binary64_nearest (x y : Z) :
  binary64 y -> Z.abs (round_binary64 x - x) <= Z.abs (y - x).
Proof.
  assert (forall x y, 0 <= x -> binary64 y ->
                      Z.abs (round_binary64 x - x) <= Z.abs (y - x)) as Hpos.
  { clear x y. intros x y Hx (m & j & Hj & Hm & ->).
    destruct (Z.lt_ge_cases x (2 ^ 53)) as [Hsmall|Hbig].
    { rewrite round_binary64_small by lia. lia. }
    destruct (round_binary64_large x Hbig)
      as (He & Hp & Hh & Hb & k & -> & Hk & Hlow & Hhigh).
    set (e := Z.log2 x - 52) in *. set (p := 2 ^ e) in *.
    set (h := 2 ^ (e - 1)) in *.
    pose proof (Z.div_mod x p ltac:(lia)) as Hdm.
    pose proof (Z.mod_pos_bound x p ltac:(lia)) as Hmod.
    assert (2 ^ 52 <= x / p < 2 ^ 53) as Hq by nia.
    set (q := x / p) in *. set (r := x mod p) in *.
    assert (Z.abs (k * p - x) <= r /\ Z.abs (k * p - x) <= p - r) as [Hr1 Hr2].
    { destruct Hk as [->| ->].
      - assert (r <= h) by lia. nia.
      - assert (h <= r) by lia. nia. }
    destruct (Z.le_gt_cases e j) as [Hle|Hgt].
    - assert (2 ^ j = 2 ^ (j - e) * p) as -> by (apply pow2_split; lia).
      set (c := m * 2 ^ (j - e)).
      replace (m * (2 ^ (j - e) * p)) with (c * p) by (subst c; ring).
      clearbody c q r. destruct (Z.le_gt_cases c q).
      + assert (0 <= (q - c) * p) by (apply Z.mul_nonneg_nonneg; lia). lia.
      + assert (0 <= (c - q - 1) * p) by (apply Z.mul_nonneg_nonneg; lia). lia.
    - assert (2 ^ j <= h) as Hjh by (apply Z.pow_le_mono_r; lia).
      assert (0 < 2 ^ j) as Hj0 by (apply Z.pow_pos_nonneg; lia).
      set (t := 2 ^ j) in *. clearbody t q r.
      assert (0 <= (2 ^ 53 - 1 - m) * t) by (apply Z.mul_nonneg_nonneg; lia).
      assert (0 <= (q - 2 ^ 52) * p) by (apply Z.mul_nonneg_nonneg; lia).
      lia. }
  intros Hy.
  destruct (Z.le_gt_cases 0 x) as [Hx|Hx]; [by apply Hpos|].
  pose proof (Hpos (- x) (- y) ltac:(lia) (binary64_opp y Hy)) as H.
  rewrite round_binary64_opp in H. lia.
Qed.

(** A binary64 value is its own rounding. *)
Lemma round_binary64_fixed (y : Z) : binary64 y -> round_binary64 y = y.
Proof.
  intros Hy. pose proof (round_binary64_nearest y y Hy) as H. lia.
Qed.

(** [n++] adds one exactly as long as the result is at most 2^53. *)
Lemma increment_exact (n : Z) : 0 <= n < 2 ^ 53 -> increment n = n + 1.
Proof.
  intros Hn. unfold increment. apply round_binary64_fixed.
  destruct (Z.eq_dec (n + 1) (2 ^ 53)) as [->|Hne].
  - exists (2 ^ 52), 1. split; [lia|]. split; [lia|reflexivity].
  - exists (n + 1), 0. split; [lia|]. split; [lia|].
    change (2 ^ 0) with 1. ring.
Qed.

(** At 2^53 it no longer does: 2^53 + 1 is not a binary64 value, and the
    tie goes back to 2^53. *)
Lemma increment_at_2_53 : increment (2 ^ 53) = 2 ^ 53.
Proof. reflexivity. Qed.

(** A number below 1 is at most [1 - 2^-53]. *)
Lemma binary64_below_one (x : Z) :
  0 <= x < binary64_one -> round_binary64 x = x -> x <= binary64_one - 2 ^ 1021.
Proof.
  intros Hx Hfix.
  assert (binary64_one = 2 ^ 53 * 2 ^ 1021) as Hone.
  { unfold binary64_one. rewrite <- Z.pow_add_r by lia. reflexivity. }
  assert (2 ^ 1073 = 2 ^ 52 * 2 ^ 1021) as H1073.
  { rewrite <- Z.pow_add_r by lia. reflexivity. }
  assert (2 <= 2 ^ 1021) as Ha.
  { change 2 with (2 ^ 1) at 1. apply Z.pow_le_mono_r; lia. }
  set (a := 2 ^ 1021) in *. clearbody a.
  destruct (Z.lt_ge_cases x (2 ^ 53)) as [Hsmall|Hbig]; [nia|].
  destruct (round_binary64_large x Hbig) as (He & Hp & Hh & Hb & k & Hk & _).
  rewrite Hfix in Hk.
  assert (Z.log2 x <= 1073) as Hlog.
  { apply log2_below; [lia| |lia]. change (1073 + 1) with 1074. fold binary64_one. lia. }
  destruct (Z.eq_dec (Z.log2 x) 1073) as [E|NE].
  - rewrite E in *. change (1073 - 52) with 1021 in *.
    assert (2 ^ 1021 = 2 * 2 ^ 1020 /\ 0 < 2 ^ 1020) as [Hb1 Hb2].
    { split; [|apply Z.pow_pos_nonneg; lia].
      change 1021 with (1 + 1020). rewrite Z.pow_add_r by lia. reflexivity. }
    rewrite Hone in *.
    set (b := 2 ^ 1021) in *. clearbody b.
    assert (k < 2 ^ 53) by nia. nia.
  - assert (x < 2 ^ 1073); [|nia].
    pose proof (Z.log2_spec x ltac:(lia)) as [_ Hlt].
    eapply Z.lt_le_trans; [exact Hlt|]. apply Z.pow_le_mono_r; lia.
Qed.

(** The product [Math.random() * 900000], rounded, is at most the largest
    number below 900000. *)
Lemma product_bounds (x : Z) :
  0 <= x <= binary64_one - 2 ^ 1021 ->
  0 <= round_binary64 (x * 900000) <= 900000 * binary64_one - 2 ^ 1041.
Proof.
  intros Hx.
  assert (binary64_one = 2 ^ 53 * 2 ^ 1021) as Hone.
  { unfold binary64_one. rewrite <- Z.pow_add_r by lia. reflexivity. }
  assert (2 ^ 1041 = 2 ^ 20 * 2 ^ 1021) as H1041.
  { rewrite <- Z.pow_add_r by lia. reflexivity. }
  assert (2 ^ 1040 = 2 ^ 19 * 2 ^ 1021) as H1040.
  { rewrite <- Z.pow_add_r by lia. reflexivity. }
  assert (2 ^ 1093 = 2 ^ 72 * 2 ^ 1021) as H1093.
  { rewrite <- Z.pow_add_r by lia. reflexivity. }
  assert (2 ^ 1094 = 2 ^ 73 * 2 ^ 1021) as H1094.
  { rewrite <- Z.pow_add_r by lia. reflexivity. }
  assert (2 <= 2 ^ 1021) as Ha.
  { change 2 with (2 ^ 1) at 1. apply Z.pow_le_mono_r; lia. }
  set (y := x * 900000).
  destruct (Z.lt_ge_cases y (2 ^ 53)) as [Hsmall|Hbig].
  { rewrite round_binary64_small by lia. rewrite Hone, H1041.
    set (a := 2 ^ 1021) in *. clearbody a. nia. }
  assert (Z.log2 y <= 1093) as Hlog.
  { apply log2_below; [lia| |lia]. change (1093 + 1) with 1094.
    rewrite H1094. rewrite Hone in Hx. set (a := 2 ^ 1021) in *. clearbody a. nia. }
  assert (53 <= Z.log2 y) as Hlog' by (apply Z.log2_le_pow2; lia).
  split.
  { apply (round_binary64_ge y 0); lia. }
  destruct (Z.le_gt_cases y (900000 * binary64_one - 2 ^ 1041)) as [Hle|Hgt].
  - set (e := Z.log2 y - 52) in *.
    assert (900000 * binary64_one - 2 ^ 1041
            = (900000 * 2 ^ 33 - 1) * 2 ^ (1041 - e) * 2 ^ e) as HM.
    { rewrite <- Z.mul_assoc, <- (pow2_split e 1041) by lia.
      unfold binary64_one. change 1074 with (33 + 1041). rewrite Z.pow_add_r by lia. ring. }
    rewrite HM in *. by apply round_binary64_le.
  - assert (Z.log2 y = 1093) as E.
    { apply Z.le_antisymm; [done|]. apply Z.log2_le_pow2; [lia|].
      rewrite H1093. rewrite Hone, H1041 in Hgt.
      set (a := 2 ^ 1021) in *. clearbody a. nia. }
    assert (900000 * binary64_one - 2 ^ 1041 = (900000 * 2 ^ 33 - 1) * 2 ^ (Z.log2 y - 52)) as HM.
    { rewrite E. change (1093 - 52) with 1041.
      unfold binary64_one. change 1074 with (33 + 1041). rewrite Z.pow_add_r by lia. ring. }
    rewrite HM. apply round_binary64_below_middle; [done|].
    rewrite <- HM. rewrite E. change (1093 - 52 - 1) with 1040.
    rewrite Hone, H1041, H1040. rewrite Hone in Hx.
    set (a := 2 ^ 1021) in *. clearbody a. subst y. nia.
Qed.

(** The sum [100000 + product], rounded, is below 1000000. *)
Lemma sum_bounds (p : Z) :
  0 <= p <= 900000 * binary64_one - 2 ^ 1041 ->
  100000 * binary64_one <= round_binary64 (100000 * binary64_one + p) < 1000000 * binary64_one.
Proof.
  intros Hp.
  assert (2 ^ 1094 = 2 ^ 20 * binary64_one) as H1094.
  { unfold binary64_one. rewrite <- Z.pow_add_r by lia. reflexivity. }
  assert (binary64_one = 2 ^ 33 * 2 ^ 1041) as Hone.
  { unfold binary64_one. rewrite <- Z.pow_add_r by lia. reflexivity. }
  assert (2 ^ 53 <= binary64_one /\ 0 < 2 ^ 1041) as [Hbig1 Hpos].
  { split; [|apply Z.pow_pos_nonneg; lia]. unfold binary64_one. apply Z.pow_le_mono_r; lia. }
  set (y := 100000 * binary64_one + p).
  assert (2 ^ 53 <= y) as Hbig by (subst y; lia).
  assert (Z.log2 y <= 1093) as Hlog.
  { apply log2_below; [lia| |lia]. change (1093 + 1) with 1094.
    rewrite H1094. subst y. set (o := binary64_one) in *. clearbody o. lia. }
  assert (53 <= Z.log2 y) as Hlog' by (apply Z.log2_le_pow2; lia).
  set (e := Z.log2 y - 52) in *.
  split.
  - assert (100000 * binary64_one = 100000 * 2 ^ (1074 - e) * 2 ^ e) as HL.
    { rewrite <- Z.mul_assoc, <- (pow2_split e 1074) by lia. reflexivity. }
    rewrite HL. apply round_binary64_ge; [done|]. fold e. rewrite <- HL.
    subst y. lia.
  - assert (1000000 * binary64_one - 2 ^ 1041
            = (1000000 * 2 ^ 33 - 1) * 2 ^ (1041 - e) * 2 ^ e) as HM.
    { rewrite <- Z.mul_assoc, <- (pow2_split e 1041) by lia. rewrite Hone. ring. }
    assert (round_binary64 y <= 1000000 * binary64_one - 2 ^ 1041); [|lia].
    rewrite HM. apply round_binary64_le; [done|]. fold e. rewrite <- HM. subst y. lia.
Qed.

(** The integer part of the sum has six digits. *)
Lemma otp_floor_bounds (draw : Z) :
  0 <= draw < binary64_one -> binary64 draw ->
  100000
  <= round_binary64 (100000 * binary64_one + round_binary64 (draw * 900000))
     / binary64_one
  <= 999999.
Proof.
  intros Hd Hfix%round_binary64_fixed.
  pose proof (binary64_below_one draw Hd Hfix) as Hmax.
  pose proof (product_bounds draw ltac:(lia)) as Hprod.
  pose proof (sum_bounds _ Hprod) as Hsum.
  assert (0 < binary64_one) as Hone by (unfold binary64_one; apply Z.pow_pos_nonneg; lia).
  set (s := round_binary64 (100000 * binary64_one + _)) in *. clearbody s.
  set (o := binary64_one) in *. clearbody o.
  split.
  - apply Z.div_le_lower_bound; lia.
  - assert (s / o < 1000000); [|lia]. apply Z.div_lt_upper_bound; lia.
Qed.

End Numbers.

(** ** The credential hasher *)

Section Hasher.
Variable sha256 : list byte -> list byte.

Lemma verifyPassword_true_iff (s d : string) :
  verifyPassword sha256 s d = true <-> hashPassword sha256 s = d.
Proof. unfold verifyPassword. apply String.eqb_eq. Qed.

Lemma verifyPassword_false_iff (s d : string) :
  verifyPassword sha256 s d = false <-> hashPassword sha256 s <> d.
Proof. unfold verifyPassword. apply String.eqb_neq. Qed.

(** C9. [hashPassword] is a function of its input alone, so equal secrets
    have equal digests; [verifyPassword s (hashPassword s)] is [true] for
    every secret; and [verifyPassword] is total with a boolean result: it is
    [true] exactly when the digest of the secret is the given digest and
    [false] exactly when it is not. *)
Theorem hasher_round_trip (s s' d : string) :
  (s = s' -> hashPassword sha256 s = hashPassword sha256 s')
  /\ verifyPassword sha256 s (hashPassword sha256 s) = true
  /\ (verifyPassword sha256 s d = true <-> hashPassword sha256 s = d)
  /\ (verifyPassword sha256 s d = false <-> hashPassword sha256 s <> d).
Proof.
  split; [congruence|]. split; [by apply verifyPassword_true_iff|].
  split; [apply verifyPassword_true_iff | apply verifyPassword_false_iff].
Qed.

End Hasher.

(** ** The OTP registry *)

Section OTP.

Lemma OTPType_eqb_eq (a b : OTPType) : OTPType_eqb a b = true <-> a = b.
Proof. destruct a, b; simpl; split; congruence. Qed.

Lemma OTPType_eqb_refl (a : OTPType) : OTPType_eqb a a = true.
Proof. by apply OTPType_eqb_eq. Qed.

Lemma OTPType_eqb_neq (a b : OTPType) : a <> b -> OTPType_eqb a b = false.
Proof.
  intros Hne. destruct (OTPType_eqb a b) eqn:E; [|done].
  by apply OTPType_eqb_eq in E.
Qed.

Lemma otpStore_sendOTP (t : string) (p : OTPType) (draw now : Z) (st : State) :
  otpStore (snd (sendOTP t p draw now st)) !! t
  = Some {| entry_otp := generateOTP draw; entry_expires := now + 300000;
            entry_type := p |}.
Proof. simpl. apply lookup_insert_eq. Qed.

(** [verifyOTP] on a state without an entry for the target. *)
Lemma verifyOTP_absent (t code : string) (p : OTPType) (now : Z) (st : State) :
  otpStore st !! t = None -> verifyOTP t code p now st = (false, st).
Proof. intros H. unfold verifyOTP. by rewrite H. Qed.

(** A [true] from [verifyOTP] comes with the deletion of the entry. *)
Lemma verifyOTP_true_deletes (t code : string) (p : OTPType) (now : Z) (st : State) :
  fst (verifyOTP t code p now st) = true ->
  otpStore (snd (verifyOTP t code p now st)) !! t = None.
Proof.
  unfold verifyOTP. destruct (otpStore st !! t) as [stored|] eqn:E; [|done].
  destruct (negb _); [done|]. destruct (_ >? _); [done|].
  destruct (String.eqb _ _); [|done].
  intros _. simpl. apply lookup_delete_eq.
Qed.

(** Within the five minutes the issued code verifies for its purpose. *)
Lemma verifyOTP_fresh (t : string) (p : OTPType) (draw now now1 : Z) (st : State) :
  now1 <= now + 300000 ->
  fst (verifyOTP t (generateOTP draw) p now1 (snd (sendOTP t p draw now st))) = true.
Proof.
  intros Hle. unfold verifyOTP. rewrite otpStore_sendOTP. cbn [entry_type entry_expires entry_otp].
  rewrite OTPType_eqb_refl. cbn [negb].
  destruct (now1 >? now + 300000) eqn:E; [lia|].
  by rewrite String.eqb_refl.
Qed.

(** C6. After [sendOTP(t, p)] has produced a code and one [verifyOTP] with the
    target, that code and the purpose has returned [true], the entry of the
    target is gone from [otpStore] and a second [verifyOTP] with the same
    target, code and purpose returns [false], whenever it is made. *)
Theorem otp_single_use (t : string) (p : OTPType) (draw now now1 now2 : Z) (st : State) :
  let issued := sendOTP t p draw now st in
  let code := generateOTP draw in
  let first := verifyOTP t code p now1 (snd issued) in
  fst first = true ->
  otp (fst issued) = Some code
  /\ otpStore (snd first) !! t = None
  /\ fst (verifyOTP t code p now2 (snd first)) = false.
Proof.
  intros issued code first Htrue.
  pose proof (verifyOTP_true_deletes _ _ _ _ _ Htrue) as Hdel.
  split; [done|]. split; [exact Hdel|]. fold first in Hdel.
  by rewrite (verifyOTP_absent _ _ _ _ _ Hdel).
Qed.

(** C7. Once more than five minutes (300000 ms) have passed since
    [sendOTP], [verifyOTP] returns [false] for the exact code and purpose,
    and that call deletes the entry. *)
Theorem otp_expiry (t : string) (p : OTPType) (draw now now1 : Z) (st : State) :
  now1 > now + 300000 ->
  let attempt := verifyOTP t (generateOTP draw) p now1 (snd (sendOTP t p draw now st)) in
  fst attempt = false /\ otpStore (snd attempt) !! t = None.
Proof.
  intros Hgt attempt. subst attempt. unfold verifyOTP.
  rewrite otpStore_sendOTP. cbn [entry_type entry_expires entry_otp].
  rewrite OTPType_eqb_refl. cbn [negb].
  destruct (now1 >? now + 300000) eqn:E; [|lia].
  split; [done|]. cbn [snd with_otpStore otpStore]. apply lookup_delete_eq.
Qed.

(** C10. [otpStore] has one entry per target: a [sendOTP] for the target
    with another purpose replaces the entry of the first one, and the code
    issued first no longer verifies for its purpose, even inside its five
    minutes. *)
Theorem otp_keyed_by_target (t : string) (p1 p2 : OTPType)
    (draw1 draw2 now1 now2 now3 : Z) (st : State) :
  p1 <> p2 ->
  let st1 := snd (sendOTP t p1 draw1 now1 st) in
  let st2 := snd (sendOTP t p2 draw2 now2 st1) in
  otpStore st2 !! t
  = Some {| entry_otp := generateOTP draw2; entry_expires := now2 + 300000;
            entry_type := p2 |}
  /\ verifyOTP t (generateOTP draw1) p1 now3 st2 = (false, st2).
Proof.
  intros Hne st1 st2. split; [apply otpStore_sendOTP|].
  unfold verifyOTP. subst st2. rewrite otpStore_sendOTP. cbn [entry_type].
  rewrite OTPType_eqb_neq; [done|congruence].
Qed.

End OTP.

(** ** The user store: keys, addresses and the persisted array *)

Section UserStore.

Lemma map_get_set {V} (k k' : string) (v : V) (m : list (string * V)) :
  map_get k (map_set k' v m) = if String.eqb k k' then Some v else map_get k m.
Proof.
  induction m as [|[k0 v0] m IH]; simpl.
  - done.
  - destruct (String.eqb k' k0) eqn:E'; simpl.
    + apply String.eqb_eq in E'. subst k0. by destruct (String.eqb k k').
    + rewrite IH. destruct (String.eqb k k0) eqn:E0; [|done].
      apply String.eqb_eq in E0. subst k0.
      by rewrite String.eqb_sym, E'.
Qed.

Lemma map_get_set_is_Some {V} (k k' : string) (v : V) (m : list (string * V)) :
  is_Some (map_get k m) -> is_Some (map_get k (map_set k' v m)).
Proof. rewrite map_get_set. destruct (String.eqb k k'); eauto. Qed.

Lemma fold_load_user_heap (us : list StoredUser) (h : list StoredUser)
    (m : list (string * nat)) :
  fst (fold_left load_user us (h, m)) = h ++ us.
Proof.
  revert h m. induction us as [|u us IH]; intros h m; simpl.
  - by rewrite app_nil_r.
  - unfold load_user at 2. simpl. rewrite IH. by rewrite <- app_assoc.
Qed.

(** What a key resolves to after the [forEach], in terms of the array and of
    what it resolved to before. *)
Lemma fold_load_user_get (k : string) (us : list StoredUser) :
  forall (h : list StoredUser) (m : list (string * nat)),
    (forall l, map_get k m = Some l -> (l < length h)%nat) ->
    deref (fst (fold_left load_user us (h, m)))
          (map_get k (snd (fold_left load_user us (h, m))))
    = last_with_key k us (deref h (map_get k m)).
Proof.
  induction us as [|u us IH]; intros h m Hwf; [done|].
  cbn [fold_left last_with_key]. unfold load_user at 2 4. cbn [fst snd].
  rewrite IH.
  - f_equal. rewrite !map_get_set. unfold has_key.
    destruct (String.eqb k (mobile (user u))) eqn:Em.
    + rewrite orb_true_r. simpl. by rewrite list_lookup_middle.
    + rewrite orb_false_r. destruct (String.eqb k (email (user u))) eqn:Ee.
      * simpl. by rewrite list_lookup_middle.
      * destruct (map_get k m) as [l|] eqn:El; [|done]. simpl.
        apply lookup_app_l. by apply Hwf.
  - intros l. rewrite !map_get_set, length_app. simpl.
    destruct (String.eqb k (mobile (user u))); [intros [= <-]; lia|].
    destruct (String.eqb k (email (user u))); [intros [= <-]; lia|].
    intros Hl. apply Hwf in Hl. lia.
Qed.

Lemma map_get_elem {V} (k : string) (v : V) (m : list (string * V)) :
  map_get k m = Some v -> (k, v) ∈ m.
Proof.
  induction m as [|[k0 v0] m IH]; [done|]. simpl.
  destruct (String.eqb k k0) eqn:E.
  - apply String.eqb_eq in E. intros [= ->]. subst k0. by left.
  - intros H. right. by apply IH.
Qed.

Lemma wf_state_get (k : string) (l : nat) (st : State) :
  wf_state st -> map_get k (users st) = Some l -> (l < length (heap st))%nat.
Proof.
  intros Hwf Hget. apply map_get_elem in Hget.
  unfold wf_state in Hwf. rewrite Forall_forall in Hwf. exact (Hwf _ Hget).
Qed.

Lemma findByKey_spec (k : string) (st : State) :
  wf_state st ->
  findByKey k st = last_with_key k (stored_users st) (users_get k st).
Proof.
  intros Hwf. unfold findByKey, users_get, loadUsers. cbn [users heap with_store].
  apply (fold_load_user_get k (stored_users st) (heap st) (users st)).
  intros l. by apply wf_state_get.
Qed.

End UserStore.

Section Loading.

Lemma last_with_key_cases (k : string) (us : list StoredUser) (acc : option StoredUser) :
  last_with_key k us acc
  = match last_with_key k us None with Some u => Some u | None => acc end.
Proof.
  revert acc. induction us as [|u us IH]; intros acc; [done|].
  simpl. destruct (has_key k u); [|apply IH].
  rewrite (IH (Some u)). by destruct (last_with_key k us None).
Qed.

Lemma last_with_key_idem (k : string) (us : list StoredUser) (acc : option StoredUser) :
  last_with_key k us (last_with_key k us acc) = last_with_key k us acc.
Proof.
  rewrite (last_with_key_cases k us (last_with_key k us acc)).
  rewrite (last_with_key_cases k us acc).
  by destruct (last_with_key k us None).
Qed.

(** A user found by [last_with_key] is in the array and is stored under the key. *)
Lemma last_with_key_None_elem (k : string) (us : list StoredUser) (u : StoredUser) :
  last_with_key k us None = Some u -> u ∈ us /\ has_key k u = true.
Proof.
  induction us as [|u0 us IH]; [done|]. simpl.
  rewrite last_with_key_cases. destruct (last_with_key k us None) as [u1|] eqn:E.
  - intros [= ->]. destruct (IH eq_refl) as [Hin Hk]. split; [by right|done].
  - destruct (has_key k u0) eqn:Ek; [|done]. intros [= ->]. split; [by left|done].
Qed.

(** A key of some user of the array resolves to a user of the array. *)
Lemma last_with_key_elem (k : string) (us : list StoredUser) (u : StoredUser) :
  u ∈ us -> has_key k u = true -> is_Some (last_with_key k us None).
Proof.
  intros Hin Hk. induction us as [|u0 us IH]; [by apply elem_of_nil in Hin|].
  simpl. rewrite last_with_key_cases.
  apply elem_of_cons in Hin as [<-|Hin].
  - rewrite Hk. destruct (last_with_key k us None); eauto.
  - destruct (IH Hin) as [u1 ->]. eauto.
Qed.

Lemma map_set_Forall {V} (P : string * V -> Prop) (k : string) (v : V)
    (m : list (string * V)) :
  Forall P m -> P (k, v) -> Forall P (map_set k v m).
Proof.
  intros Hm Hkv. induction Hm as [|[k0 v0] m H0 Hm IH]; simpl.
  - by constructor.
  - destruct (String.eqb k k0) eqn:E.
    + apply String.eqb_eq in E. subst k0. by constructor.
    + by constructor.
Qed.

Lemma fold_load_user_wf (us : list StoredUser) :
  forall (h : list StoredUser) (m : list (string * nat)),
    Forall (fun e => (snd e < length h)%nat) m ->
    Forall (fun e => (snd e < length (fst (fold_left load_user us (h, m))))%nat)
           (snd (fold_left load_user us (h, m))).
Proof.
  induction us as [|u us IH]; intros h m Hwf; [exact Hwf|].
  cbn [fold_left]. unfold load_user at 2 4. cbn [fst snd]. apply IH.
  rewrite length_app. simpl.
  do 2 (apply map_set_Forall; [|simpl; lia]).
  eapply Forall_impl; [exact Hwf|]. simpl. intros e He. lia.
Qed.

Lemma wf_state_initial : wf_state initial_state.
Proof. constructor. Qed.

Lemma wf_state_loadUsers (st : State) : wf_state st -> wf_state (loadUsers st).
Proof.
  intros Hwf. unfold wf_state, loadUsers. cbn [users heap with_store].
  by apply fold_load_user_wf.
Qed.

Lemma wf_state_saveUsers (st : State) : wf_state st -> wf_state (saveUsers st).
Proof. intros Hwf. exact Hwf. Qed.

Lemma wf_state_with_heap_insert (l : nat) (u : StoredUser) (st : State) :
  wf_state st -> wf_state (with_heap (<[l := u]> (heap st)) st).
Proof.
  unfold wf_state. cbn [with_heap with_store users heap]. by rewrite length_insert.
Qed.

Lemma stored_users_loadUsers (st : State) : stored_users (loadUsers st) = stored_users st.
Proof. done. Qed.

(** A key that the map holds is still held after [loadUsers]: no key is ever
    removed from [users]. *)
Lemma fold_load_user_keeps (k : string) (us : list StoredUser) :
  forall (h : list StoredUser) (m : list (string * nat)),
    is_Some (map_get k m) ->
    is_Some (map_get k (snd (fold_left load_user us (h, m)))).
Proof.
  induction us as [|u us IH]; intros h m Hk; [done|].
  cbn [fold_left]. apply IH. unfold load_user. cbn [snd].
  by do 2 apply map_get_set_is_Some.
Qed.

Lemma loadUsers_keeps_key (k : string) (st : State) :
  is_Some (map_get k (users st)) -> is_Some (map_get k (users (loadUsers st))).
Proof. apply fold_load_user_keeps. Qed.

(** Loading twice resolves every key as loading once. *)
Lemma findByKey_loadUsers (k : string) (st : State) :
  wf_state st -> findByKey k (loadUsers st) = findByKey k st.
Proof.
  intros Hwf.
  rewrite (findByKey_spec k (loadUsers st) (wf_state_loadUsers st Hwf)).
  rewrite stored_users_loadUsers.
  change (users_get k (loadUsers st)) with (findByKey k st).
  rewrite (findByKey_spec k st Hwf). apply last_with_key_idem.
Qed.

End Loading.

(** ** register and login *)

Section Service.
Variable sha256 : list byte -> list byte.

Lemma findByKey_map_has (k : string) (st : State) :
  is_Some (findByKey k st) -> map_has k (users (loadUsers st)) = true.
Proof.
  unfold findByKey, users_get, map_has. intros [u Hu].
  by destruct (map_get k (users (loadUsers st))).
Qed.

(** C3. When the email or the mobile number of the request already resolves
    to a stored record, [register] fails with the duplicate-identity error
    and leaves the user store as it was: the persisted array is the same
    (same size, same records) and every key resolves to the record it
    resolved to before the call. *)
Theorem register_duplicate (userData : RegisterData) (now : Z) (st : State) :
  wf_state st ->
  is_Some (findByKey (reg_email userData) st)
  \/ is_Some (findByKey (reg_mobile userData) st) ->
  let attempt := register sha256 userData now st in
  fst attempt = Thrown (JsError "User already exists with this email or mobile number")
  /\ fortas_users (snd attempt) = fortas_users st
  /\ length (stored_users (snd attempt)) = length (stored_users st)
  /\ forall k, findByKey k (snd attempt) = findByKey k st.
Proof.
  intros Hwf Hdup attempt.
  assert (attempt
          = (Thrown (JsError "User already exists with this email or mobile number"),
             loadUsers st)) as ->.
  { subst attempt. unfold register.
    destruct Hdup as [H|H]; apply findByKey_map_has in H; rewrite H;
      [done | by rewrite orb_true_r]. }
  cbn [fst snd]. split; [done|]. split; [done|]. split; [done|].
  intros k. by apply findByKey_loadUsers.
Qed.

Lemma toString36_digits_nonempty (fuel : nat) :
  forall (n : Z) (c : ascii) (acc : string),
    toString36_digits fuel n (String c acc) <> "".
Proof.
  induction fuel as [|fuel IH]; intros n c acc; [done|].
  simpl. destruct (n / 36 =? 0); [done|apply IH].
Qed.

Lemma toString36_nonempty (n : Z) : toString36 n <> "".
Proof.
  unfold toString36. destruct (n <? 0); [done|].
  simpl. destruct (n / 36 =? 0); [done|apply toString36_digits_nonempty].
Qed.

(** A generated token is never the empty string, so it is a truthy value. *)
Lemma truthy_generateSessionToken (rnd : string) (now : Z) :
  truthy_token (Some (generateSessionToken rnd now))
  = Some (generateSessionToken rnd now).
Proof.
  unfold generateSessionToken.
  destruct rnd as [|c rnd]; [|done]. simpl.
  pose proof (toString36_nonempty now). by destruct (toString36 now).
Qed.

(** The three ways through [login]. *)
Lemma login_not_found (scope : option bool) (credentials : LoginData)
    (rnd : string) (now : Z) (st : State) :
  findByKey (emailOrMobile credentials) st = None ->
  login_in_scope sha256 scope credentials rnd now st = (Returned None, loadUsers st).
Proof.
  unfold findByKey, users_get, login_in_scope. intros H.
  destruct (map_get _ _) as [l|]; [|done]. by rewrite H.
Qed.

Lemma login_mismatch (scope : option bool) (credentials : LoginData)
    (rnd : string) (now : Z) (st : State) (u : StoredUser) :
  findByKey (emailOrMobile credentials) st = Some u ->
  verifyPassword sha256 (password credentials) (hashedPassword u) = false ->
  login_in_scope sha256 scope credentials rnd now st = (Returned None, loadUsers st).
Proof.
  unfold findByKey, users_get, login_in_scope. intros H Hv.
  destruct (map_get _ _) as [l|]; [|done]. by rewrite H, Hv.
Qed.

Lemma login_match (scope : option bool) (credentials : LoginData)
    (rnd : string) (now : Z) (st : State) (u : StoredUser) :
  findByKey (emailOrMobile credentials) st = Some u ->
  verifyPassword sha256 (password credentials) (hashedPassword u) = true ->
  exists st2,
    fortas_session_token st2 = fortas_session_token st
    /\ sessions st2 = sessions st
    /\ login_in_scope sha256 scope credentials rnd now st
       = match scope with
         | None => (Thrown (ReferenceError "rememberMe"), st2)
         | Some rememberMe =>
             (Returned (Some (public_user (set_lastLoginDate now u))),
              with_session (generateSessionToken rnd now)
                {| userId := id (user u);
                   expires := if rememberMe then now + 30 * 24 * 60 * 60 * 1000
                              else now + 24 * 60 * 60 * 1000 |} st2)
         end.
Proof.
  unfold findByKey, users_get, login_in_scope. intros H Hv.
  destruct (map_get _ _) as [l|]; [|done]. rewrite H, Hv. cbn [negb].
  eexists. split; [|split; [|reflexivity]]; done.
Qed.

(** C5. [login] with an identifier that resolves to no user and [login] with
    an identifier that resolves to a user whose digest does not match give
    the same result, [null]; in both cases the only effect is that of
    [loadUsers].  This holds whatever [rememberMe] is bound to, hence for
    [login]. *)
Theorem login_no_existence_leak (scope : option bool) (credentials : LoginData)
    (rnd rnd' : string) (now now' : Z) (st_absent st_present : State) (u : StoredUser) :
  findByKey (emailOrMobile credentials) st_absent = None ->
  findByKey (emailOrMobile credentials) st_present = Some u ->
  verifyPassword sha256 (password credentials) (hashedPassword u) = false ->
  fst (login_in_scope sha256 scope credentials rnd now st_absent)
  = fst (login_in_scope sha256 scope credentials rnd' now' st_present)
  /\ fst (login sha256 credentials rnd now st_absent) = Returned None
  /\ fst (login sha256 credentials rnd' now' st_present) = Returned None
  /\ snd (login sha256 credentials rnd now st_absent) = loadUsers st_absent
  /\ snd (login sha256 credentials rnd' now' st_present) = loadUsers st_present.
Proof.
  intros Habsent Hpresent Hv. unfold login.
  rewrite !(login_not_found _ _ _ _ _ Habsent).
  rewrite !(login_mismatch _ _ _ _ _ _ Hpresent Hv). done.
Qed.

(** With a binding for [rememberMe], the session that [login] creates is
    valid at once and until its time to live has passed: 24 hours, or 30 days
    when [rememberMe] is [true]. *)
Lemma login_in_scope_session_ttl (rememberMe : bool) (credentials : LoginData)
    (rnd : string) (now later : Z) (st : State) (u : StoredUser) :
  findByKey (emailOrMobile credentials) st = Some u ->
  verifyPassword sha256 (password credentials) (hashedPassword u) = true ->
  let st' := snd (login_in_scope sha256 (Some rememberMe) credentials rnd now st) in
  isSessionValid later st'
  = (later <? now + (if rememberMe then 2592000000 else 86400000)).
Proof.
  intros H Hv st'.
  destruct (login_match (Some rememberMe) _ rnd now _ _ H Hv) as (st2 & _ & _ & Heq).
  subst st'. rewrite Heq. cbn [snd]. unfold isSessionValid.
  cbn [fortas_session_token with_session sessions].
  rewrite truthy_generateSessionToken.
  rewrite lookup_insert_eq. cbn [expires]. by destruct rememberMe.
Qed.

(** C2. [login] reads the identifier [rememberMe], which nothing binds: a
    call whose credentials verify throws a [ReferenceError] after the user
    has been saved and before any session is stored.  The session token and
    the [sessions] map are those of before the call, so [isSessionValid]
    answers what it answered before. *)
Theorem login_valid_credentials_throw (credentials : LoginData)
    (rnd : string) (now : Z) (st : State) (u : StoredUser) :
  findByKey (emailOrMobile credentials) st = Some u ->
  verifyPassword sha256 (password credentials) (hashedPassword u) = true ->
  let attempt := login sha256 credentials rnd now st in
  fst attempt = Thrown (ReferenceError "rememberMe")
  /\ sessions (snd attempt) = sessions st
  /\ fortas_session_token (snd attempt) = fortas_session_token st
  /\ forall later, isSessionValid later (snd attempt) = isSessionValid later st.
Proof.
  intros H Hv attempt. subst attempt. unfold login.
  destruct (login_match None _ rnd now _ _ H Hv) as (st2 & Htok & Hses & ->).
  cbn [fst snd]. split; [done|]. split; [done|]. split; [done|].
  intros later. unfold isSessionValid. by rewrite Htok, Hses.
Qed.

(** C4, as the code has it.  Bad credentials and an expired or wrong OTP are
    reported by a returned value: [login] returns [null] and [verifyOTP]
    returns [false].  A duplicate identity is reported by [register] with a
    thrown [Error]. *)
Theorem expected_outcomes (userData : RegisterData) (credentials : LoginData)
    (scope : option bool) (rnd target code : string) (type : OTPType) (now : Z)
    (st : State) :
  (is_Some (findByKey (reg_email userData) st)
   \/ is_Some (findByKey (reg_mobile userData) st) ->
   fst (register sha256 userData now st)
   = Thrown (JsError "User already exists with this email or mobile number"))
  /\ (findByKey (emailOrMobile credentials) st = None
      \/ (exists u, findByKey (emailOrMobile credentials) st = Some u
                    /\ verifyPassword sha256 (password credentials) (hashedPassword u) = false) ->
      fst (login_in_scope sha256 scope credentials rnd now st) = Returned None)
  /\ ((forall entry, otpStore st !! target = Some entry ->
                     entry_type entry <> type \/ entry_expires entry < now
                     \/ entry_otp entry <> code) ->
      fst (verifyOTP target code type now st) = false).
Proof.
  split; [|split].
  - intros Hdup. unfold register.
    destruct Hdup as [H|H]; apply findByKey_map_has in H; rewrite H;
      [done | by rewrite orb_true_r].
  - intros [H|(u & H & Hv)].
    + by rewrite (login_not_found _ _ _ _ _ H).
    + by rewrite (login_mismatch _ _ _ _ _ _ H Hv).
  - intros Hbad. unfold verifyOTP.
    destruct (otpStore st !! target) as [entry|]; [|done].
    destruct (Hbad entry eq_refl) as [Ht|[He|Hc]].
    + by rewrite OTPType_eqb_neq.
    + destruct (negb _); [done|].
      destruct (now >? entry_expires entry) eqn:E; [done|lia].
    + destruct (negb _); [done|]. destruct (_ >? _); [done|].
      apply String.eqb_neq in Hc. by rewrite Hc.
Qed.

End Service.

(** ** Arrays: findIndex and the filter of saveUsers *)

Section Arrays.
Context {A : Type}.

Lemma elem_of_filter_indexed (p : A -> Z -> bool) (arr : list A) :
  forall (i : Z) (x : A),
    x ∈ filter_indexed p i arr
    <-> exists j : nat, arr !! j = Some x /\ p x (i + Z.of_nat j) = true.
Proof.
  induction arr as [|a arr IH]; intros i x; simpl.
  - split; [by intros ?%elem_of_nil|by intros (j & ? & _)].
  - split.
    + intros Hin.
      assert (x = a /\ p a i = true \/ x ∈ filter_indexed p (i + 1) arr) as [[-> Hp]|Hin'].
      { destruct (p a i) eqn:Hp; [|by right].
        apply elem_of_cons in Hin as [->|?]; [by left|by right]. }
      * exists 0%nat. by rewrite Z.add_0_r.
      * apply IH in Hin' as (j & Hj & Hp). exists (S j). split; [done|].
        by replace (i + Z.of_nat (S j)) with (i + 1 + Z.of_nat j) by lia.
    + intros ([|j] & Hj & Hp); simpl in Hj.
      * injection Hj as ->. rewrite Z.add_0_r in Hp. rewrite Hp. by left.
      * assert (x ∈ filter_indexed p (i + 1) arr) as Hin.
        { apply IH. exists j. split; [done|].
          by replace (i + 1 + Z.of_nat j) with (i + Z.of_nat (S j)) by lia. }
        destruct (p a i); [by right|done].
Qed.

Lemma findIndex_first (p : A -> bool) (pre suf : list A) (x : A) :
  Forall (fun y => p y = false) pre -> p x = true ->
  findIndex p (pre ++ x :: suf) = Z.of_nat (length pre).
Proof.
  intros Hpre Hx. induction Hpre as [|y pre Hy Hpre IH]; simpl.
  - by rewrite Hx.
  - rewrite Hy, IH. destruct (Z.of_nat (length pre) <? 0) eqn:E; lia.
Qed.

Lemma find_first (p : A -> bool) (l : list A) (x : A) :
  List.find p l = Some x ->
  exists pre suf, l = pre ++ x :: suf /\ Forall (fun y => p y = false) pre /\ p x = true.
Proof.
  induction l as [|a l IH]; [done|]. simpl.
  destruct (p a) eqn:Hp.
  - intros [= ->]. exists [], l. by repeat split.
  - intros (pre & suf & -> & Hpre & Hx)%IH.
    exists (a :: pre), suf. repeat split; [|done]. by constructor.
Qed.

End Arrays.

Section FirstOfItsId.

Lemma first_of_its_id_lookup (arr : list StoredUser) (x : StoredUser) :
  x ∈ first_of_its_id arr
  <-> exists j : nat, arr !! j = Some x /\ findIndex (same_id x) arr = Z.of_nat j.
Proof.
  unfold first_of_its_id. rewrite elem_of_filter_indexed.
  split; intros (j & Hj & Hp); exists j; (split; [done|]).
  - rewrite Z.add_0_l in Hp. by apply Z.eqb_eq in Hp.
  - rewrite Z.add_0_l. by apply Z.eqb_eq.
Qed.

(** What [saveUsers] keeps is in the array. *)
Lemma first_of_its_id_elem (arr : list StoredUser) (x : StoredUser) :
  x ∈ first_of_its_id arr -> x ∈ arr.
Proof.
  intros (j & Hj & _)%first_of_its_id_lookup. by eapply list_elem_of_lookup_2.
Qed.

(** The first object with a given id is kept. *)
Lemma first_of_its_id_first (pre suf : list StoredUser) (x : StoredUser) :
  Forall (fun y => same_id x y = false) pre ->
  x ∈ first_of_its_id (pre ++ x :: suf).
Proof.
  intros Hpre. apply first_of_its_id_lookup. exists (length pre). split.
  - by apply list_lookup_middle.
  - apply findIndex_first; [done|]. unfold same_id. apply String.eqb_refl.
Qed.

(** At most one object per id is kept. *)
Lemma first_of_its_id_unique (arr : list StoredUser) (x y : StoredUser) :
  x ∈ first_of_its_id arr -> y ∈ first_of_its_id arr ->
  id (user x) = id (user y) -> x = y.
Proof.
  intros (j & Hj & Hx)%first_of_its_id_lookup (j' & Hj' & Hy)%first_of_its_id_lookup Hid.
  unfold same_id in Hx, Hy. rewrite Hid in Hx. rewrite Hx in Hy.
  apply Nat2Z.inj in Hy. subst j'. congruence.
Qed.

End FirstOfItsId.

(** ** Mutating a stored user and saving *)

Section Update.



Variables (st1 : State) (uid k0 : string) (l0 : nat) (r0 r1 : StoredUser).
Hypothesis Hfind : find_entry_by_id uid st1 = Some (k0, l0).
Hypothesis Hr0 : heap st1 !! l0 = Some r0.
Hypothesis Hr1 : id (user r1) = uid.

Lemma found_has_id : id (user r0) = uid.
Proof using Hfind Hr0.
  apply find_first in Hfind as (_ & _ & _ & _ & Hp).
  unfold has_id in Hp. cbn [snd] in Hp. rewrite Hr0 in Hp. by apply String.eqb_eq.
Qed.

Lemma heap_after_insert (l : nat) :
  <[l0 := r1]> (heap st1) !! l = if decide (l = l0) then Some r1 else heap st1 !! l.
Proof using Hr0.
  destruct (decide (l = l0)) as [->|Hne].
  - apply list_lookup_insert_eq. by eapply lookup_lt_Some.
  - by apply list_lookup_insert_ne.
Qed.

(** The mutated object is the first of its id among the values, so
    [saveUsers] persists it. *)
Lemma mutated_is_stored : r1 ∈ stored_users (mutate_and_save l0 r1 st1).
Proof using Hfind Hr0 Hr1.
  pose proof found_has_id as Hid0.
  apply find_first in Hfind as (pre & suf & Husers & Hpre & _).
  unfold mutate_and_save, saveUsers, stored_users, users_values, map_values.
  cbn [fortas_users with_fortas_users with_heap with_store heap users].
  rewrite Husers, fmap_app, fmap_cons, omap_app. cbn [omap list_omap snd].
  rewrite heap_after_insert, decide_True by done.
  apply first_of_its_id_first.
  rewrite Forall_forall. intros y Hy.
  apply list_elem_of_omap in Hy as (l & Hl & Hy).
  apply list_elem_of_fmap in Hl as ([k l'] & -> & Hin).
  rewrite Forall_forall in Hpre. specialize (Hpre _ Hin).
  unfold has_id in Hpre. cbn [snd] in Hpre, Hy.
  rewrite heap_after_insert in Hy. destruct (decide (l' = l0)) as [->|Hne].
  - rewrite Hr0, Hid0, String.eqb_refl in Hpre. done.
  - rewrite Hy in Hpre. unfold same_id. by rewrite Hr1.
Qed.

(** Every persisted record is the mutated object or an object that the map
    held before the mutation. *)
Lemma stored_after_mutation (u : StoredUser) :
  u ∈ stored_users (mutate_and_save l0 r1 st1) -> u = r1 \/ u ∈ users_values st1.
Proof using Hr0.
  unfold mutate_and_save, saveUsers, stored_users.
  cbn [fortas_users with_fortas_users].
  intros Hu%first_of_its_id_elem. unfold users_values in *.
  cbn [with_heap with_store heap users] in Hu.
  apply list_elem_of_omap in Hu as (l & Hl & Hu).
  rewrite heap_after_insert in Hu. destruct (decide (l = l0)) as [->|Hne].
  - left. congruence.
  - right. apply list_elem_of_omap. eauto.
Qed.

Lemma key_free_for_elem (k : string) (u : StoredUser) :
  key_free_for uid k st1 = true -> u ∈ users_values st1 ->
  id (user u) <> uid -> has_key k u = false.
Proof.
  unfold key_free_for. rewrite forallb_forall. intros Hfree Hu Hne.
  apply list_elem_of_In in Hu. specialize (Hfree _ Hu).
  apply orb_true_iff in Hfree as [Heq|Hk].
  - by apply String.eqb_eq in Heq.
  - by apply negb_true_iff in Hk.
Qed.

(** A persisted record stored under a key that no other user has is a record
    of [uid]; it is the mutated object. *)
Lemma stored_with_free_key (k : string) (u : StoredUser) :
  key_free_for uid k st1 = true ->
  u ∈ stored_users (mutate_and_save l0 r1 st1) -> has_key k u = true -> u = r1.
Proof using Hfind Hr0 Hr1.
  intros Hfree Hu Hk.
  assert (id (user u) = uid) as Hid.
  { destruct (decide (id (user u) = uid)) as [|Hne]; [done|].
    destruct (stored_after_mutation u Hu) as [->|Hin]; [done|].
    by rewrite (key_free_for_elem k u Hfree Hin Hne) in Hk. }
  apply (first_of_its_id_unique (users_values (with_heap (<[l0 := r1]> (heap st1)) st1)));
    [exact Hu|exact mutated_is_stored|congruence].
Qed.

Lemma users_get_after_mutation (k : string) (r : StoredUser) :
  users_get k st1 = Some r -> id (user r) = uid ->
  exists r', users_get k (mutate_and_save l0 r1 st1) = Some r' /\ id (user r') = uid.
Proof using Hr0 Hr1.
  unfold users_get, mutate_and_save.
  cbn [saveUsers with_fortas_users with_heap with_store heap users].
  destruct (map_get k (users st1)) as [l|]; [|done].
  rewrite heap_after_insert. intros Hl Hid.
  destruct (decide (l = l0)); eauto.
Qed.

Lemma wf_state_after_mutation : wf_state st1 -> wf_state (mutate_and_save l0 r1 st1).
Proof. intros Hwf. by apply wf_state_saveUsers, wf_state_with_heap_insert. Qed.

(** After the mutation and the save, a key that no other user has resolves
    to a record of [uid] when the mutated object is stored under it or when it
    resolved to a record of [uid] before. *)
Lemma findByKey_after_mutation (k : string) :
  wf_state st1 ->
  key_free_for uid k st1 = true ->
  has_key k r1 = true
  \/ (exists r, users_get k st1 = Some r /\ id (user r) = uid) ->
  exists r', findByKey k (mutate_and_save l0 r1 st1) = Some r' /\ id (user r') = uid
             /\ (has_key k r1 = true -> r' = r1).
Proof using Hfind Hr0 Hr1.
  intros Hwf Hfree Hk.
  rewrite (findByKey_spec k (mutate_and_save l0 r1 st1) (wf_state_after_mutation Hwf)), last_with_key_cases.
  destruct (last_with_key k (stored_users (mutate_and_save l0 r1 st1)) None) as [u|] eqn:E.
  - apply last_with_key_None_elem in E as [Hu Hku].
    rewrite (stored_with_free_key k u Hfree Hu Hku). eauto.
  - assert (has_key k r1 = false) as Hk1.
    { destruct (has_key k r1) eqn:Hk1; [|done].
      destruct (last_with_key_elem k _ r1 mutated_is_stored Hk1) as [u Hu].
      congruence. }
    destruct Hk as [Hk|(r & Hr & Hid)]; [congruence|].
    destruct (users_get_after_mutation k r Hr Hid) as (r' & Hr' & Hid').
    exists r'. rewrite Hk1. done.
Qed.

End Update.

(** ** updateProfile *)

Section UpdateProfile.

Lemma last_with_key_None (k : string) (us : list StoredUser) :
  (forall u, u ∈ us -> has_key k u = true -> False) ->
  last_with_key k us None = None.
Proof.
  intros Hno. destruct (last_with_key k us None) as [u|] eqn:E; [|done].
  apply last_with_key_None_elem in E as [Hu Hk]. by destruct (Hno u).
Qed.

Lemma findByKey_reload_page (k : string) (st : State) :
  findByKey k (reload_page st) = last_with_key k (stored_users st) None.
Proof. rewrite findByKey_spec; [done|constructor]. Qed.


End UpdateProfile.

(** ** resetPassword followed by login *)

Section ResetPassword.
Variable sha256 : list byte -> list byte.

Lemma users_get_address (k : string) (r : StoredUser) (st : State) :
  users_get k st = Some r ->
  exists l, map_get k (users st) = Some l /\ heap st !! l = Some r.
Proof.
  unfold users_get. destruct (map_get k (users st)) as [l|]; [eauto|done].
Qed.

(** [resetPassword] with the code of a live reset entry: the object under the
    email gets the new digest and the users are saved. *)
Lemma resetPassword_live (resetData : PasswordResetData) (now : Z) (st : State)
    (r : StoredUser) (l : nat) (entry : OTPEntry) :
  map_get (reset_email resetData) (users (loadUsers st)) = Some l ->
  heap (loadUsers st) !! l = Some r ->
  otpStore st !! reset_email resetData = Some entry ->
  entry_type entry = otp_reset -> now <= entry_expires entry ->
  entry_otp entry = reset_otp resetData ->
  resetPassword sha256 resetData now st
  = (true,
     mutate_and_save l
       (set_hashedPassword (hashPassword sha256 (reset_newPassword resetData)) r)
       (with_otpStore (delete (reset_email resetData) (otpStore st)) (loadUsers st))).
Proof.
  intros Hl Hr Hentry Htype Hlive Hcode. unfold resetPassword.
  rewrite Hl, Hr. unfold verifyOTP.
  change (otpStore (loadUsers st)) with (otpStore st).
  rewrite Hentry, Htype. cbn [OTPType_eqb negb].
  destruct (now >? entry_expires entry) eqn:E; [lia|].
  by rewrite Hcode, String.eqb_refl.
Qed.

(** C8.  For a user stored under [e] whose password is [pw1], in a state
    where the object under [e] is the first of its id in the map and no other
    user has the key [e]: after [sendOTP(e, 'reset')], [resetPassword] with
    the issued code, made within the five minutes, returns [true], and
    [login] with [pw1] then returns [null] (the digests of [pw1] and [pw2]
    differ).  [login] with [pw2] gets past the credential check and throws
    the [ReferenceError] of the unbound [rememberMe], where it would return
    the user if the identifier were bound. *)
Theorem reset_then_login (e pw1 pw2 rnd1 rnd2 : string) (draw now0 now1 now2 now3 : Z)
    (st : State) (r : StoredUser) :
  wf_state st ->
  findByKey e st = Some r -> email (user r) = e ->
  verifyPassword sha256 pw1 (hashedPassword r) = true ->
  snd <$> find_entry_by_id (id (user r)) (loadUsers st) = map_get e (users (loadUsers st)) ->
  key_free_for (id (user r)) e (loadUsers st) = true ->
  hashPassword sha256 pw1 <> hashPassword sha256 pw2 ->
  now1 <= now0 + 300000 ->
  let issued := sendOTP e otp_reset draw now0 st in
  let reset :=
    resetPassword sha256
      {| reset_email := e; reset_newPassword := pw2; reset_otp := generateOTP draw |}
      now1 (snd issued) in
  let old_login :=
    login sha256 {| emailOrMobile := e; password := pw1 |} rnd1 now2 (snd reset) in
  let new_login :=
    login sha256 {| emailOrMobile := e; password := pw2 |} rnd2 now3 (snd old_login) in
  otp (fst issued) = Some (generateOTP draw)
  /\ fst reset = true
  /\ fst old_login = Returned None
  /\ fst new_login = Thrown (ReferenceError "rememberMe")
  /\ forall rememberMe,
       fst (login_in_scope sha256 (Some rememberMe)
              {| emailOrMobile := e; password := pw2 |} rnd2 now3 (snd old_login))
       = Returned (Some (public_user
                           (set_lastLoginDate now3
                              (set_hashedPassword (hashPassword sha256 pw2) r)))).
Proof.
  intros Hwf He Hemail _ Hfirst Hfree Hne Hlive issued reset old_login new_login.
  split; [done|].
  pose proof (wf_state_loadUsers st Hwf) as Hwf1.
  destruct (users_get_address e r (loadUsers st) He) as (l & Hl & Hr).
  rewrite Hl in Hfirst.
  destruct (find_entry_by_id (id (user r)) (loadUsers st)) as [[k0 l0]|] eqn:Hfind;
    [|done].
  injection Hfirst as ->.
  set (r1 := set_hashedPassword (hashPassword sha256 pw2) r).
  set (st1 := with_otpStore (delete e (otpStore (snd issued))) (loadUsers st)).
  assert (reset = (true, mutate_and_save l r1 st1)) as Hreset.
  { subst reset. eapply resetPassword_live; [exact Hl|exact Hr| | | |].
    - apply otpStore_sendOTP.
    - done.
    - cbn [entry_expires]. lia.
    - done. }
  rewrite Hreset. cbn [fst snd]. split; [done|].
  assert (findByKey e (mutate_and_save l r1 st1) = Some r1) as Hfound.
  { destruct (findByKey_after_mutation st1 (id (user r)) k0 l r r1 Hfind Hr eq_refl e)
      as (r' & Hr' & _ & Heq); [exact Hwf1|exact Hfree| |].
    - left. unfold has_key. cbn. by rewrite Hemail, String.eqb_refl.
    - rewrite Hr'. f_equal. apply Heq. unfold has_key. cbn.
      by rewrite Hemail, String.eqb_refl. }
  assert (wf_state (mutate_and_save l r1 st1)) as Hwf3.
  { by apply (wf_state_after_mutation st1 l r1). }
  assert (old_login = (Returned None, loadUsers (mutate_and_save l r1 st1))) as Hold.
  { subst old_login. rewrite Hreset. cbn [snd]. unfold login.
    apply (login_mismatch sha256 None {| emailOrMobile := e; password := pw1 |}
             rnd1 now2 _ r1 Hfound).
    cbn. by apply verifyPassword_false_iff. }
  split; [by rewrite Hold|].
  assert (findByKey e (snd old_login) = Some r1) as Hfound'.
  { rewrite Hold. cbn [snd]. by rewrite findByKey_loadUsers. }
  assert (verifyPassword sha256 pw2 (hashedPassword r1) = true) as Hv.
  { by apply verifyPassword_true_iff. }
  split.
  - subst new_login. unfold login.
    destruct (login_match sha256 None {| emailOrMobile := e; password := pw2 |}
                rnd2 now3 _ r1 Hfound' Hv) as (st' & _ & _ & ->).
    done.
  - intros rememberMe.
    destruct (login_match sha256 (Some rememberMe)
                {| emailOrMobile := e; password := pw2 |}
                rnd2 now3 _ r1 Hfound' Hv) as (st' & _ & _ & ->).
    done.
Qed.

End ResetPassword.

(** ** Well-formedness is kept by every operation

    The states that the service reaches from a freshly loaded page are
    well-formed. *)

Section Invariant.
Variable sha256 : list byte -> list byte.

Lemma wf_state_reload_page (st : State) : wf_state (reload_page st).
Proof. constructor. Qed.

Lemma wf_state_sendOTP (t : string) (p : OTPType) (draw now : Z) (st : State) :
  wf_state st -> wf_state (snd (sendOTP t p draw now st)).
Proof. done. Qed.

Lemma wf_state_verifyOTP (t code : string) (p : OTPType) (now : Z) (st : State) :
  wf_state st -> wf_state (snd (verifyOTP t code p now st)).
Proof.
  intros Hwf. unfold verifyOTP. destruct (otpStore st !! t); [|done].
  destruct (negb _); [done|]. destruct (_ >? _); [done|].
  by destruct (String.eqb _ _).
Qed.

Lemma wf_state_register (userData : RegisterData) (now : Z) (st : State) :
  wf_state st -> wf_state (snd (register sha256 userData now st)).
Proof.
  intros Hwf%wf_state_loadUsers. unfold register.
  destruct (_ || _); [done|]. cbn [snd]. apply wf_state_saveUsers.
  unfold wf_state in *. cbn [with_store heap users]. rewrite length_app. simpl.
  do 2 (apply map_set_Forall; [|simpl; lia]).
  eapply Forall_impl; [exact Hwf|]. simpl. intros e He. lia.
Qed.

Lemma wf_state_login (scope : option bool) (credentials : LoginData)
    (rnd : string) (now : Z) (st : State) :
  wf_state st -> wf_state (snd (login_in_scope sha256 scope credentials rnd now st)).
Proof.
  intros Hwf%wf_state_loadUsers. unfold login_in_scope.
  destruct (map_get _ _) as [l|]; [|done].
  destruct (heap (loadUsers st) !! l) as [user0|]; [|done].
  destruct (negb _); [done|].
  pose proof (wf_state_saveUsers _
                (wf_state_with_heap_insert l (set_lastLoginDate now user0) _ Hwf)).
  by destruct scope.
Qed.

Lemma wf_state_resetPassword (resetData : PasswordResetData) (now : Z) (st : State) :
  wf_state st -> wf_state (snd (resetPassword sha256 resetData now st)).
Proof.
  intros Hwf%wf_state_loadUsers. unfold resetPassword.
  destruct (map_get _ _) as [l|]; [|done].
  destruct (heap (loadUsers st) !! l) as [user0|]; [|done].
  pose proof (wf_state_verifyOTP (reset_email resetData) (reset_otp resetData)
                otp_reset now _ Hwf) as Hwf2.
  destruct (verifyOTP _ _ _ _ _) as [isValidOTP st2]. cbn [snd] in Hwf2.
  destruct isValidOTP; [|done]. cbn [negb snd].
  by apply wf_state_saveUsers, wf_state_with_heap_insert.
Qed.

Lemma wf_state_updateProfile (userId : string) (updates : UserProfileUpdates)
    (st : State) :
  wf_state st -> wf_state (snd (updateProfile userId updates st)).
Proof.
  intros Hwf%wf_state_loadUsers. unfold updateProfile.
  destruct (find_entry_by_id _ _) as [[key l]|]; [|done].
  destruct (heap (loadUsers st) !! l) as [user0|]; [|done].
  by apply wf_state_saveUsers, wf_state_with_heap_insert.
Qed.

End Invariant.

(** ** The operations addressed by a user id *)

Section ById.

Lemma find_entry_by_id_unused (uid : string) (st : State) :
  id_unused uid st = true -> find_entry_by_id uid st = None.
Proof.
  unfold id_unused. rewrite forallb_forall. intros Hunused.
  destruct (find_entry_by_id uid st) as [[k l]|] eqn:Hfind; [|done].
  apply find_some in Hfind as [Hin Hid]. unfold has_id in Hid. cbn [snd] in Hid.
  destruct (heap st !! l) as [u|] eqn:Hl; [|done].
  assert (u ∈ users_values st) as Hu.
  { apply list_elem_of_omap. exists l. split; [|done].
    apply list_elem_of_fmap. exists (k, l). split; [done|]. by apply list_elem_of_In. }
  apply list_elem_of_In in Hu. specialize (Hunused _ Hu). by rewrite Hid in Hunused.
Qed.

(** The user under a key, mutated and saved: when the object under [k] is
    the first of its id in the map, no other user has the key, and the
    mutation keeps the id and the key, [k] resolves to the mutated record,
    now and after a reload of the page. *)
Lemma mutate_under_key (k : string) (r r1 : StoredUser) (st1 : State) :
  wf_state st1 ->
  users_get k st1 = Some r ->
  snd <$> find_entry_by_id (id (user r)) st1 = map_get k (users st1) ->
  key_free_for (id (user r)) k st1 = true ->
  id (user r1) = id (user r) -> has_key k r1 = true ->
  exists k0 l,
    find_entry_by_id (id (user r)) st1 = Some (k0, l) /\ heap st1 !! l = Some r
    /\ findByKey k (mutate_and_save l r1 st1) = Some r1
    /\ findByKey k (reload_page (mutate_and_save l r1 st1)) = Some r1.
Proof.
  intros Hwf Hget Hfirst Hfree Hid Hkey.
  destruct (users_get_address k r st1 Hget) as (l & Hl & Hr).
  rewrite Hl in Hfirst.
  destruct (find_entry_by_id (id (user r)) st1) as [[k0 l0]|] eqn:Hfind; [|done].
  injection Hfirst as ->. exists k0, l. split; [done|]. split; [done|].
  assert (last_with_key k (stored_users (mutate_and_save l r1 st1)) None = Some r1)
    as Hlast.
  { destruct (last_with_key_elem k _ r1
                (mutated_is_stored st1 _ k0 l r r1 Hfind Hr Hid) Hkey) as [u Hu].
    rewrite Hu. f_equal.
    apply last_with_key_None_elem in Hu as [Hin Hku].
    exact (stored_with_free_key st1 _ k0 l r r1 Hfind Hr Hid k u Hfree Hin Hku). }
  split.
  - rewrite findByKey_spec by (by apply wf_state_after_mutation).
    by rewrite last_with_key_cases, Hlast.
  - by rewrite findByKey_reload_page.
Qed.

Lemma by_id_unknown (uid : string) (updates : UserProfileUpdates)
    (kind : ActivityKind) (st : State) :
  id_unused uid (loadUsers st) = true ->
  updateProfile uid updates st = (None, loadUsers st)
  /\ upgradeToPremium uid st = (false, loadUsers st)
  /\ updateActivityStats uid kind st = loadUsers st.
Proof.
  intros Hfind%find_entry_by_id_unused.
  unfold updateProfile, upgradeToPremium, updateActivityStats. by rewrite Hfind.
Qed.

(** [updateProfile], [upgradeToPremium] and [updateActivityStats] for an id
    that no object of the map has: the answer is [null], [false] and nothing,
    and the only effect is that of [loadUsers]; the persisted array is not
    written. *)
Theorem unknown_id_is_no_op (uid : string) (updates : UserProfileUpdates)
    (kind : ActivityKind) (st : State) :
  id_unused uid (loadUsers st) = true ->
  updateProfile uid updates st = (None, loadUsers st)
  /\ upgradeToPremium uid st = (false, loadUsers st)
  /\ updateActivityStats uid kind st = loadUsers st
  /\ fortas_users (loadUsers st) = fortas_users st.
Proof.
  intros Hunused.
  destruct (by_id_unknown uid updates kind st Hunused) as (Hupd & Hupg & Hact).
  by rewrite Hupd, Hupg, Hact.
Qed.

Lemma upgradeToPremium_of_stored (k : string) (r : StoredUser) (st : State) :
  wf_state st ->
  findByKey k st = Some r -> has_key k r = true ->
  snd <$> find_entry_by_id (id (user r)) (loadUsers st) = map_get k (users (loadUsers st)) ->
  key_free_for (id (user r)) k (loadUsers st) = true ->
  exists st',
    upgradeToPremium (id (user r)) st = (true, st')
    /\ findByKey k st' = Some (set_membershipType Premium r)
    /\ findByKey k (reload_page st') = Some (set_membershipType Premium r).
Proof.
  intros Hwf Hget Hkey Hfirst Hfree.
  destruct (mutate_under_key k r (set_membershipType Premium r) (loadUsers st)
              (wf_state_loadUsers st Hwf) Hget Hfirst Hfree eq_refl Hkey)
    as (k0 & l & Hfind & Hr & Hnow & Hreload).
  unfold upgradeToPremium. rewrite Hfind, Hr. eauto.
Qed.

(** [upgradeToPremium] of a stored user returns [true], and the key of the
    user then resolves to the same record with [membershipType] set to
    ['Premium'], also after a reload of the page. *)
Theorem upgradeToPremium_persists (k : string) (r : StoredUser) (st : State) :
  wf_state st ->
  findByKey k st = Some r -> has_key k r = true ->
  snd <$> find_entry_by_id (id (user r)) (loadUsers st) = map_get k (users (loadUsers st)) ->
  key_free_for (id (user r)) k (loadUsers st) = true ->
  let result := upgradeToPremium (id (user r)) st in
  fst result = true
  /\ findByKey k (snd result) = Some (set_membershipType Premium r)
  /\ findByKey k (reload_page (snd result)) = Some (set_membershipType Premium r).
Proof.
  intros Hwf Hget Hkey Hfirst Hfree result.
  destruct (upgradeToPremium_of_stored k r st Hwf Hget Hkey Hfirst Hfree)
    as (st' & Heq & Hnow & Hreload).
  subst result. by rewrite Heq.
Qed.

(** [updateActivityStats] of a stored user.  Let the key [k] resolve to the
    record [r], [k] being the email or the mobile number of [r], where the
    object that the map holds under [k] is the first object of the map with
    the id of [r], and no record of another id has [k] as its email or
    mobile number.  Then after the call, and also after a reload of the
    page, [k] resolves to [r] with its statistics replaced: the counter of
    the given kind is the [++] of the old one (of zero when the user had no
    statistics), which is one more for a counter from 0 to 2^53 - 1, and the
    other two counters are as they were. *)
Theorem updateActivityStats_counts (k : string) (kind : ActivityKind)
    (r : StoredUser) (st : State) :
  wf_state st ->
  findByKey k st = Some r -> has_key k r = true ->
  snd <$> find_entry_by_id (id (user r)) (loadUsers st) = map_get k (users (loadUsers st)) ->
  key_free_for (id (user r)) k (loadUsers st) = true ->
  let st' := updateActivityStats (id (user r)) kind st in
  let before := stats_or_zero (activityStats (user r)) in
  findByKey k st' = Some (counted kind r)
  /\ findByKey k (reload_page st') = Some (counted kind r)
  /\ (exists after,
        counted kind r = set_activityStats after r
        /\ counter kind after = increment (counter kind before)
        /\ (0 <= counter kind before < 2 ^ 53 ->
            counter kind after = counter kind before + 1)
        /\ (forall other, other <> kind -> counter other after = counter other before)).
Proof.
  intros Hwf Hget Hkey Hfirst Hfree st' before.
  destruct (mutate_under_key k r (counted kind r) (loadUsers st)
              (wf_state_loadUsers st Hwf) Hget Hfirst Hfree eq_refl Hkey)
    as (k0 & l & Hfind & Hr & Hnow & Hreload).
  subst st'. unfold updateActivityStats. rewrite Hfind, Hr.
  split; [exact Hnow|]. split; [exact Hreload|].
  exists (bump_stats kind before). split; [reflexivity|].
  assert (counter kind (bump_stats kind before) = increment (counter kind before)) as Hc.
  { by destruct kind. }
  split; [exact Hc|]. split.
  - intros Hsafe. by rewrite Hc, increment_exact.
  - intros other Hother. by destruct kind, other.
Qed.

(** [updateProfile] of a stored user.  Let the key [k] resolve to the record
    [r], where the object that the map holds under [k] is the first object
    of the map with the id of [r], and no record of another id has [k] as
    its email or mobile number; let the updates leave the id alone and [k]
    be the email or the mobile number of the merged record.  Then the call
    returns the merged user, and [k] then resolves to the record with the
    given fields replaced and the others as they were, also after a reload
    of the page. *)
Theorem updateProfile_merges (k : string) (updates : UserProfileUpdates)
    (r : StoredUser) (st : State) :
  wf_state st ->
  findByKey k st = Some r ->
  upd_id updates = None -> has_key k (Object_assign r updates) = true ->
  snd <$> find_entry_by_id (id (user r)) (loadUsers st) = map_get k (users (loadUsers st)) ->
  key_free_for (id (user r)) k (loadUsers st) = true ->
  let result := updateProfile (id (user r)) updates st in
  fst result = Some (public_user (Object_assign r updates))
  /\ findByKey k (snd result) = Some (Object_assign r updates)
  /\ findByKey k (reload_page (snd result)) = Some (Object_assign r updates).
Proof.
  intros Hwf Hget Hupd_id Hkey Hfirst Hfree result.
  assert (id (user (Object_assign r updates)) = id (user r)) as Hid.
  { cbn. by rewrite Hupd_id. }
  destruct (mutate_under_key k r (Object_assign r updates) (loadUsers st)
              (wf_state_loadUsers st Hwf) Hget Hfirst Hfree Hid Hkey)
    as (k0 & l & Hfind & Hr & Hnow & Hreload).
  subst result. unfold updateProfile. rewrite Hfind, Hr. cbn [fst snd].
  split; [done|]. split; [exact Hnow|exact Hreload].
Qed.

End ById.

(** ** register, when it succeeds *)

Section Register.
Variable sha256 : list byte -> list byte.

Lemma map_set_absent {V} (k : string) (v : V) (m : list (string * V)) :
  map_get k m = None -> map_set k v m = m ++ [(k, v)].
Proof.
  induction m as [|[k0 v0] m IH]; [done|]. simpl.
  destruct (String.eqb k k0); [done|]. intros H. by rewrite IH.
Qed.

Lemma map_set_same {V} (k : string) (v : V) (m : list (string * V)) :
  map_get k m = Some v -> map_set k v m = m.
Proof.
  induction m as [|[k0 v0] m IH]; [done|]. simpl.
  destruct (String.eqb k k0) eqn:E.
  - intros [= ->]. done.
  - intros H. by rewrite IH.
Qed.

Lemma findByKey_None_map_has (k : string) (st : State) :
  wf_state st -> findByKey k st = None -> map_has k (users (loadUsers st)) = false.
Proof.
  intros Hwf%wf_state_loadUsers. unfold findByKey, users_get, map_has.
  destruct (map_get k (users (loadUsers st))) as [l|] eqn:El; [|done].
  intros Hnone. apply (wf_state_get k l _ Hwf) in El.
  apply lookup_ge_None in Hnone. lia.
Qed.

(** The entries that [register] adds to the map. *)
Lemma users_after_register (e m : string) (l : nat) (us : list (string * nat)) :
  map_get e us = None -> map_get m us = None ->
  map_set m l (map_set e l us)
  = us ++ (if String.eqb m e then [(e, l)] else [(e, l); (m, l)]).
Proof.
  intros He Hm. rewrite (map_set_absent e l us He).
  destruct (String.eqb m e) eqn:E.
  - apply String.eqb_eq in E. subst m. rewrite <- (map_set_absent e l us He).
    apply map_set_same. by rewrite map_get_set, String.eqb_refl.
  - rewrite map_set_absent; [by rewrite <- app_assoc|].
    rewrite <- (map_set_absent e l us He), map_get_set. by rewrite E.
Qed.

Lemma omap_lookup_app (h : list StoredUser) (x : StoredUser) (ls : list nat) :
  Forall (fun l => (l < length h)%nat) ls ->
  omap (fun l => (h ++ [x]) !! l) ls = omap (fun l => h !! l) ls.
Proof.
  intros Hls. apply list_omap_ext. induction Hls as [|l ls Hl Hls IH]; constructor.
  - by rewrite lookup_app_l.
  - exact IH.
Qed.

Lemma register_returns_new_user (userData : RegisterData) (now : Z) (st : State) :
  map_has (reg_email userData) (users (loadUsers st)) = false ->
  map_has (reg_mobile userData) (users (loadUsers st)) = false ->
  register sha256 userData now st
  = (Returned (new_user userData now),
     saveUsers (registering sha256 userData now (loadUsers st))).
Proof. intros He Hm. unfold register. by rewrite He, Hm. Qed.

Lemma users_values_registering (userData : RegisterData) (now : Z) (st1 : State) :
  wf_state st1 ->
  map_has (reg_email userData) (users st1) = false ->
  map_has (reg_mobile userData) (users st1) = false ->
  exists news,
    users_values (registering sha256 userData now st1) = users_values st1 ++ news
    /\ (news = [new_stored_user sha256 userData now]
        \/ news = [new_stored_user sha256 userData now;
                   new_stored_user sha256 userData now]).
Proof.
  intros Hwf He Hm. unfold map_has in He, Hm.
  destruct (map_get (reg_email userData) (users st1)) eqn:Ee; [done|].
  destruct (map_get (reg_mobile userData) (users st1)) eqn:Em; [done|].
  unfold users_values, registering, map_values. cbn [with_store heap users].
  rewrite (users_after_register _ _ _ _ Ee Em), fmap_app, omap_app.
  rewrite omap_lookup_app.
  2:{ apply Forall_fmap. exact Hwf. }
  destruct (String.eqb _ _).
  - exists [new_stored_user sha256 userData now]. split; [|by left].
    f_equal. cbn. by rewrite list_lookup_middle.
  - exists [new_stored_user sha256 userData now; new_stored_user sha256 userData now].
    split; [|by right]. f_equal. cbn. by rewrite !list_lookup_middle.
Qed.

Lemma stored_registering_elem (userData : RegisterData) (now : Z) (st1 : State)
    (u : StoredUser) :
  wf_state st1 ->
  map_has (reg_email userData) (users st1) = false ->
  map_has (reg_mobile userData) (users st1) = false ->
  u ∈ stored_users (saveUsers (registering sha256 userData now st1)) ->
  u ∈ users_values st1 \/ u = new_stored_user sha256 userData now.
Proof.
  intros Hwf He Hm Hu%first_of_its_id_elem.
  destruct (users_values_registering userData now st1 Hwf He Hm) as (news & Hv & Hnews).
  rewrite Hv in Hu. apply elem_of_app in Hu as [Hu|Hu]; [by left|right].
  destruct Hnews as [-> | ->].
  - by apply list_elem_of_singleton in Hu.
  - apply elem_of_cons in Hu as [Hu|Hu]; [done|].
    by apply list_elem_of_singleton in Hu.
Qed.

Lemma users_get_registering (k : string) (userData : RegisterData) (now : Z)
    (st1 : State) :
  has_key k (new_stored_user sha256 userData now) = true ->
  users_get k (saveUsers (registering sha256 userData now st1))
  = Some (new_stored_user sha256 userData now).
Proof.
  unfold has_key, users_get, registering.
  cbn [saveUsers with_fortas_users with_store users heap new_stored_user user
       new_user email mobile].
  intros Hk. rewrite !map_get_set.
  destruct (String.eqb k (reg_mobile userData)).
  - by rewrite list_lookup_middle.
  - rewrite orb_false_r in Hk. rewrite Hk. by rewrite list_lookup_middle.
Qed.

Lemma key_unused_elem (k : string) (u : StoredUser) (st1 : State) :
  key_unused k st1 = true -> u ∈ users_values st1 -> has_key k u = false.
Proof.
  unfold key_unused. rewrite forallb_forall. intros Hunused Hu%list_elem_of_In.
  specialize (Hunused _ Hu). by apply negb_true_iff in Hunused.
Qed.

(** [register] with an email and a mobile number that resolve to nothing, at
    a time whose id [user_<now>] no object of the map has: the call returns
    the new user, a Free member with zeroed statistics; afterwards the email
    and the mobile number both resolve to the one stored record of that user,
    whose digest verifies the password, and they still do after a reload of
    the page. *)
Theorem register_fresh (userData : RegisterData) (now : Z) (st : State) :
  wf_state st ->
  findByKey (reg_email userData) st = None ->
  findByKey (reg_mobile userData) st = None ->
  key_unused (reg_email userData) (loadUsers st) = true ->
  key_unused (reg_mobile userData) (loadUsers st) = true ->
  id_unused ("user_" +:+ toString now) (loadUsers st) = true ->
  let result := register sha256 userData now st in
  let stored := new_stored_user sha256 userData now in
  fst result = Returned (new_user userData now)
  /\ membershipType (new_user userData now) = Free
  /\ findByKey (reg_email userData) (snd result) = Some stored
  /\ findByKey (reg_mobile userData) (snd result) = Some stored
  /\ findByKey (reg_email userData) (reload_page (snd result)) = Some stored
  /\ findByKey (reg_mobile userData) (reload_page (snd result)) = Some stored
  /\ verifyPassword sha256 (reg_password userData) (hashedPassword stored) = true.
Proof.
  intros Hwf He Hm Hue Hum Hid result stored.
  pose proof (wf_state_loadUsers st Hwf) as Hwf1.
  pose proof (findByKey_None_map_has _ _ Hwf He) as Hhe.
  pose proof (findByKey_None_map_has _ _ Hwf Hm) as Hhm.
  subst result. rewrite (register_returns_new_user userData now st Hhe Hhm). cbn [fst snd].
  set (st1 := loadUsers st) in *.
  set (st' := saveUsers (registering sha256 userData now st1)).
  assert (stored ∈ stored_users st') as Hstored.
  { destruct (users_values_registering userData now st1 Hwf1 Hhe Hhm)
      as (news & Hv & Hnews).
    unfold st', saveUsers, stored_users. cbn [fortas_users with_fortas_users].
    rewrite Hv.
    assert (Forall (fun y => same_id stored y = false) (users_values st1)) as Hpre.
    { unfold id_unused in Hid. rewrite forallb_forall in Hid.
      rewrite Forall_forall. intros y Hy%list_elem_of_In.
      specialize (Hid _ Hy). by apply negb_true_iff in Hid. }
    destruct Hnews as [-> | ->]; by apply first_of_its_id_first. }
  assert (forall k, has_key k stored = true -> key_unused k st1 = true ->
                    last_with_key k (stored_users st') None = Some stored) as Hlast.
  { intros k Hk Hunused.
    destruct (last_with_key_elem k _ stored Hstored Hk) as [u Hu]. rewrite Hu. f_equal.
    apply last_with_key_None_elem in Hu as [Hin Hku].
    destruct (stored_registering_elem userData now st1 u Hwf1 Hhe Hhm Hin) as [Hold|Hnew];
      [|done].
    by rewrite (key_unused_elem k u st1 Hunused Hold) in Hku. }
  assert (wf_state st') as Hwf'.
  { pose proof (wf_state_register sha256 userData now st Hwf) as H.
    by rewrite (register_returns_new_user userData now st Hhe Hhm) in H. }
  assert (has_key (reg_email userData) stored = true) as Hke.
  { unfold has_key. cbn. by rewrite String.eqb_refl. }
  assert (has_key (reg_mobile userData) stored = true) as Hkm.
  { unfold has_key. cbn. by rewrite String.eqb_refl, orb_true_r. }
  split; [done|]. split; [done|].
  rewrite !(findByKey_spec _ st' Hwf'), !findByKey_reload_page.
  rewrite !(last_with_key_cases _ _ (users_get _ _)).
  rewrite (Hlast _ Hke Hue), (Hlast _ Hkm Hum).
  repeat split. by apply verifyPassword_true_iff.
Qed.

(** [register] at a time whose id [user_<now>] an object of the map already
    has (a registration in the same millisecond): the call returns the new
    user as for a fresh id and the email resolves to the new record on this
    page, but [saveUsers] keeps the first object of the id, so the new record
    is not in the persisted array and the email resolves to nothing after a
    reload of the page. *)
Theorem register_same_id_not_persisted (userData : RegisterData) (now : Z) (st : State) :
  wf_state st ->
  findByKey (reg_email userData) st = None ->
  findByKey (reg_mobile userData) st = None ->
  key_unused (reg_email userData) (loadUsers st) = true ->
  id_unused ("user_" +:+ toString now) (loadUsers st) = false ->
  let result := register sha256 userData now st in
  let stored := new_stored_user sha256 userData now in
  fst result = Returned (new_user userData now)
  /\ findByKey (reg_email userData) (snd result) = Some stored
  /\ (stored ∉ stored_users (snd result))
  /\ findByKey (reg_email userData) (reload_page (snd result)) = None.
Proof.
  intros Hwf He Hm Hue Hid result stored.
  pose proof (wf_state_loadUsers st Hwf) as Hwf1.
  pose proof (findByKey_None_map_has _ _ Hwf He) as Hhe.
  pose proof (findByKey_None_map_has _ _ Hwf Hm) as Hhm.
  assert (wf_state (snd result)) as Hwf' by apply (wf_state_register _ _ _ _ Hwf).
  subst result. rewrite (register_returns_new_user userData now st Hhe Hhm) in *.
  cbn [fst snd] in *.
  set (st1 := loadUsers st) in *.
  set (st' := saveUsers (registering sha256 userData now st1)) in *.
  assert (has_key (reg_email userData) stored = true) as Hke.
  { unfold has_key. cbn. by rewrite String.eqb_refl. }
  assert (stored ∉ stored_users st') as Hnot.
  { intros Hstored.
    destruct (List.find (same_id stored) (users_values st1)) as [v0|] eqn:Hfind.
    - apply find_first in Hfind as (pre & suf & Hv1 & Hpre & Hsame).
      destruct (users_values_registering userData now st1 Hwf1 Hhe Hhm)
        as (news & Hv & _).
      assert (v0 ∈ stored_users st') as Hv0.
      { unfold st', saveUsers, stored_users. cbn [fortas_users with_fortas_users].
        rewrite Hv, Hv1, <- app_assoc, <- app_comm_cons.
        apply first_of_its_id_first.
        eapply Forall_impl; [exact Hpre|]. intros y Hy. unfold same_id in *.
        apply String.eqb_eq in Hsame. by rewrite Hsame. }
      assert (stored = v0) as Heq.
      { apply (first_of_its_id_unique (users_values (registering sha256 userData now st1)));
          [exact Hstored|exact Hv0|].
        unfold same_id in Hsame. by apply String.eqb_eq in Hsame. }
      assert (v0 ∈ users_values st1) as Hin.
      { rewrite Hv1. apply elem_of_app. right. by left. }
      rewrite <- Heq in Hin.
      pose proof (key_unused_elem _ _ _ Hue Hin) as Hno. congruence.
    - unfold id_unused in Hid. apply not_true_iff_false in Hid. apply Hid.
      apply forallb_forall. intros y Hy.
      pose proof (find_none _ _ Hfind y Hy) as Hy'.
      change (String.eqb (id (user y)) ("user_" +:+ toString now) = false) in Hy'.
      by rewrite Hy'. }
  assert (last_with_key (reg_email userData) (stored_users st') None = None) as Hlast.
  { apply last_with_key_None. intros u Hu Hk.
    destruct (stored_registering_elem userData now st1 u Hwf1 Hhe Hhm Hu) as [Hold| ->];
      [|done].
    by rewrite (key_unused_elem _ _ _ Hue Hold) in Hk. }
  split; [done|]. split; [|split; [done|]].
  - rewrite (findByKey_spec _ st' Hwf'), last_with_key_cases, Hlast.
    by apply users_get_registering.
  - by rewrite findByKey_reload_page.
Qed.

End Register.

(** ** Sequences of calls *)

Section Traces.
Variable sha256 : list byte -> list byte.

Lemma wf_state_logout (st : State) : wf_state st -> wf_state (logout st).
Proof. done. Qed.

Lemma wf_state_getCurrentUser (now : Z) (st : State) :
  wf_state st -> wf_state (snd (getCurrentUser now st)).
Proof.
  intros Hwf. pose proof (wf_state_loadUsers st Hwf). unfold getCurrentUser.
  destruct (truthy_token _); [|done]. destruct (sessions st !! _); [|done].
  destruct (_ >? _); [done|]. by destruct (List.find _ _).
Qed.

Lemma wf_state_updateActivityStats (userId : string) (type : ActivityKind) (st : State) :
  wf_state st -> wf_state (updateActivityStats userId type st).
Proof.
  intros Hwf%wf_state_loadUsers. unfold updateActivityStats.
  destruct (find_entry_by_id _ _) as [[key l]|]; [|done].
  destruct (heap (loadUsers st) !! l) as [user0|]; [|done].
  by apply wf_state_saveUsers, wf_state_with_heap_insert.
Qed.

Lemma wf_state_upgradeToPremium (userId : string) (st : State) :
  wf_state st -> wf_state (snd (upgradeToPremium userId st)).
Proof.
  intros Hwf%wf_state_loadUsers. unfold upgradeToPremium.
  destruct (find_entry_by_id _ _) as [[key l]|]; [|done].
  destruct (heap (loadUsers st) !! l) as [user0|]; [|done].
  by apply wf_state_saveUsers, wf_state_with_heap_insert.
Qed.

Lemma wf_state_run (c : Call) (st : State) : wf_state st -> wf_state (run sha256 st c).
Proof.
  intros Hwf. destruct c; cbn [run].
  - by apply wf_state_sendOTP.
  - by apply wf_state_verifyOTP.
  - by apply wf_state_register.
  - by apply wf_state_login.
  - by apply wf_state_resetPassword.
  - by apply wf_state_getCurrentUser.
  - by apply wf_state_updateProfile.
  - by apply wf_state_updateActivityStats.
  - by apply wf_state_upgradeToPremium.
  - by apply wf_state_logout.
Qed.

Lemma wf_state_run_all (cs : list Call) (st : State) :
  wf_state st -> wf_state (run_all sha256 st cs).
Proof.
  revert st. induction cs as [|c cs IH]; intros st Hwf; [done|].
  apply IH. by apply wf_state_run.
Qed.

Lemma loaded_key_loadUsers (k : string) (st : State) :
  loaded_key k st -> loaded_key k (loadUsers st).
Proof. apply loadUsers_keeps_key. Qed.

Lemma loaded_key_same_store (k : string) (st st' : State) :
  heap st' = heap st -> users st' = users st -> fortas_users st' = fortas_users st ->
  loaded_key k st -> loaded_key k st'.
Proof.
  intros Hh Hu Hf. unfold loaded_key, loadUsers, stored_users.
  cbn [users with_store]. by rewrite Hh, Hu, Hf.
Qed.

Lemma loaded_key_mutate (k : string) (l : nat) (u : StoredUser) (st : State) :
  loaded_key k st -> loaded_key k (mutate_and_save l u (loadUsers st)).
Proof. intros Hk. apply loadUsers_keeps_key. exact Hk. Qed.

Lemma loaded_key_run (k : string) (c : Call) (st : State) :
  loaded_key k st -> loaded_key k (run sha256 st c).
Proof.
  intros Hk. destruct c; cbn [run].
  - by eapply loaded_key_same_store.
  - eapply loaded_key_same_store; [| | |exact Hk]; unfold verifyOTP;
      destruct (otpStore st !! _); try done;
      destruct (negb _); try done; destruct (_ >? _); try done;
      by destruct (String.eqb _ _).
  - unfold register. destruct (_ || _); [by apply loaded_key_loadUsers|].
    cbn [snd]. apply loadUsers_keeps_key.
    cbn [saveUsers with_fortas_users with_store users].
    by do 2 apply map_get_set_is_Some.
  - unfold login, login_in_scope.
    destruct (map_get _ _) as [l|]; [|by apply loaded_key_loadUsers].
    destruct (heap (loadUsers st) !! l) as [user0|]; [|by apply loaded_key_loadUsers].
    destruct (negb _); [by apply loaded_key_loadUsers|].
    by apply loaded_key_mutate.
  - unfold resetPassword.
    destruct (map_get _ _) as [l|]; [|by apply loaded_key_loadUsers].
    destruct (heap (loadUsers st) !! l) as [user0|]; [|by apply loaded_key_loadUsers].
    unfold verifyOTP. change (otpStore (loadUsers st)) with (otpStore st).
    destruct (otpStore st !! _) as [stored|]; [|by apply loaded_key_loadUsers].
    destruct (negb (OTPType_eqb _ _)); [by apply loaded_key_loadUsers|].
    destruct (_ >? _); [by apply loaded_key_loadUsers|].
    destruct (String.eqb _ _); [|by apply loaded_key_loadUsers].
    cbn [negb snd]. by apply loadUsers_keeps_key.
  - unfold getCurrentUser. destruct (truthy_token _); [|done].
    destruct (sessions st !! _); [|by eapply loaded_key_same_store].
    destruct (_ >? _); [by eapply loaded_key_same_store|].
    destruct (List.find _ _); by apply loaded_key_loadUsers.
  - unfold updateProfile.
    destruct (find_entry_by_id _ _) as [[key l]|]; [|by apply loaded_key_loadUsers].
    destruct (heap (loadUsers st) !! l) as [user0|]; [|by apply loaded_key_loadUsers].
    by apply loaded_key_mutate.
  - unfold updateActivityStats.
    destruct (find_entry_by_id _ _) as [[key l]|]; [|by apply loaded_key_loadUsers].
    destruct (heap (loadUsers st) !! l) as [user0|]; [|by apply loaded_key_loadUsers].
    by apply loaded_key_mutate.
  - unfold upgradeToPremium.
    destruct (find_entry_by_id _ _) as [[key l]|]; [|by apply loaded_key_loadUsers].
    destruct (heap (loadUsers st) !! l) as [user0|]; [|by apply loaded_key_loadUsers].
    by apply loaded_key_mutate.
  - by eapply loaded_key_same_store.
Qed.

Lemma loaded_key_run_all (k : string) (cs : list Call) (st : State) :
  loaded_key k st -> loaded_key k (run_all sha256 st cs).
Proof.
  revert st. induction cs as [|c cs IH]; intros st Hk; [done|].
  apply IH. by apply loaded_key_run.
Qed.

Lemma loaded_key_findByKey (k : string) (st : State) :
  wf_state st -> loaded_key k st <-> is_Some (findByKey k st).
Proof.
  intros Hwf%wf_state_loadUsers. unfold loaded_key, findByKey, users_get. split.
  - intros [l Hl]. rewrite Hl. apply lookup_lt_is_Some. by eapply wf_state_get.
  - destruct (map_get k (users (loadUsers st))); [eauto|by intros [? ?]].
Qed.

(** No call of the service removes a key: an email or mobile number that
    resolves keeps resolving after any sequence of calls on the same page,
    and [register] with it throws the duplicate error from then on. *)
Theorem key_keeps_resolving (k : string) (cs : list Call) (st : State) :
  wf_state st ->
  is_Some (findByKey k st) ->
  is_Some (findByKey k (run_all sha256 st cs))
  /\ forall userData now,
       reg_email userData = k \/ reg_mobile userData = k ->
       fst (register sha256 userData now (run_all sha256 st cs))
       = Thrown (JsError "User already exists with this email or mobile number").
Proof.
  intros Hwf Hk.
  assert (is_Some (findByKey k (run_all sha256 st cs))) as Hk'.
  { apply loaded_key_findByKey; [by apply wf_state_run_all|].
    apply loaded_key_run_all. by apply loaded_key_findByKey. }
  split; [exact Hk'|]. intros userData now Hkey.
  apply findByKey_map_has in Hk'. unfold register.
  destruct Hkey as [-> | ->]; rewrite Hk'; [done|by rewrite orb_true_r].
Qed.

End Traces.

(** ** What saveUsers persists *)

Section SaveUsers.



End SaveUsers.

(** ** More on the OTP registry *)

Section OTPWindow.

(** The code that [sendOTP] issued verifies for its purpose exactly up to
    and including the 300000th millisecond after the issue. *)
Theorem otp_window (t : string) (p : OTPType) (draw now now1 : Z) (st : State) :
  fst (verifyOTP t (generateOTP draw) p now1 (snd (sendOTP t p draw now st))) = true
  <-> now1 <= now + 300000.
Proof.
  split; [|apply verifyOTP_fresh].
  unfold verifyOTP. rewrite otpStore_sendOTP. cbn [entry_type entry_expires entry_otp].
  rewrite OTPType_eqb_refl. cbn [negb].
  destruct (now1 >? now + 300000) eqn:E; [done|lia].
Qed.

(** A wrong code inside the five minutes is answered [false] and changes
    nothing: after any number of wrong guesses the entry is as issued and
    the right code still verifies.  There is no limit on attempts. *)
Theorem otp_wrong_guesses (t : string) (p : OTPType) (draw now now1 : Z) (st : State)
    (attempts : list (string * Z)) :
  Forall (fun a => fst a <> generateOTP draw /\ snd a <= now + 300000) attempts ->
  now1 <= now + 300000 ->
  let issued := snd (sendOTP t p draw now st) in
  let after := fold_left (fun s a => snd (verifyOTP t (fst a) p (snd a) s)) attempts issued in
  Forall (fun a => fst (verifyOTP t (fst a) p (snd a) issued) = false) attempts
  /\ after = issued
  /\ fst (verifyOTP t (generateOTP draw) p now1 after) = true.
Proof.
  intros Hattempts Hlive issued after.
  assert (forall a, fst a <> generateOTP draw /\ snd a <= now + 300000 ->
                    verifyOTP t (fst a) p (snd a) issued = (false, issued)) as Hwrong.
  { intros [code tm] [Hcode Htm]. cbn [fst snd] in *. unfold verifyOTP, issued.
    rewrite otpStore_sendOTP. cbn [entry_type entry_expires entry_otp].
    rewrite OTPType_eqb_refl. cbn [negb].
    destruct (tm >? now + 300000) eqn:E; [lia|].
    assert (String.eqb (generateOTP draw) code = false) as ->; [|done].
    apply String.eqb_neq. congruence. }
  assert (after = issued) as Hafter.
  { subst after. induction Hattempts as [|a attempts Ha _ IH]; [done|].
    cbn [fold_left]. by rewrite (Hwrong a Ha). }
  split; [|split; [exact Hafter|]].
  - eapply Forall_impl; [exact Hattempts|]. intros a Ha. by rewrite (Hwrong a Ha).
  - rewrite Hafter. by apply verifyOTP_fresh.
Qed.

(** [sendOTP] and [verifyOTP] for one target leave the entries of every
    other target, the users, the sessions and [localStorage] as they were. *)
Theorem otp_local (t t' code : string) (p : OTPType) (draw now : Z) (st : State) :
  t <> t' ->
  let sent := snd (sendOTP t p draw now st) in
  let verified := snd (verifyOTP t code p now st) in
  otpStore sent !! t' = otpStore st !! t'
  /\ otpStore verified !! t' = otpStore st !! t'
  /\ (users sent, heap sent, sessions sent, fortas_users sent, fortas_session_token sent)
     = (users st, heap st, sessions st, fortas_users st, fortas_session_token st)
  /\ (users verified, heap verified, sessions verified, fortas_users verified,
      fortas_session_token verified)
     = (users st, heap st, sessions st, fortas_users st, fortas_session_token st).
Proof.
  intros Hne sent verified. split; [by apply lookup_insert_ne|].
  subst verified. unfold verifyOTP.
  destruct (otpStore st !! t) as [stored|]; [|done].
  destruct (negb _); [done|].
  destruct (_ >? _); [by split; [apply lookup_delete_ne|]|].
  destruct (String.eqb _ _); [by split; [apply lookup_delete_ne|]|done].
Qed.

End OTPWindow.

(** ** The text of an OTP and of a digest *)

Section Texts.
Variable sha256 : list byte -> list byte.

Lemma of_lu_digit (k : N) (d : Decimal.uint) :
  (k < 10)%N ->
  DecimalPos.Unsigned.of_lu (digit k d) = (k + 10 * DecimalPos.Unsigned.of_lu d)%N.
Proof.
  intros Hk. destruct k as [|q]; [done|].
  do 4 (destruct q as [q|q|]; try lia; try done).
Qed.

Lemma revapp_digit (k : N) (d acc : Decimal.uint) :
  Decimal.revapp (digit k d) acc = Decimal.revapp d (digit k acc).
Proof.
  unfold digit. destruct k as [|q]; [done|].
  do 4 (destruct q as [q|q|]; try done).
Qed.

Lemma string_of_digit (k : N) (d : Decimal.uint) :
  exists c, NilEmpty.string_of_uint (digit k d) = String c (NilEmpty.string_of_uint d)
            /\ is_digit c = true.
Proof.
  unfold digit. destruct k as [|q]; [by eexists|].
  do 4 (destruct q as [q|q|]; try by eexists).
Qed.

Lemma unorm_digit (k : N) (d : Decimal.uint) :
  (0 < k)%N -> Decimal.unorm (digit k d) = digit k d.
Proof.
  intros Hk. destruct k as [|q]; [lia|]. unfold digit.
  do 4 (destruct q as [q|q|]; try done).
Qed.

Lemma digit_not_Nil (k : N) (d : Decimal.uint) : digit k d <> Decimal.Nil.
Proof.
  unfold digit. destruct k as [|q]; [done|].
  do 4 (destruct q as [q|q|]; try done).
Qed.

Lemma toString_six_digits (n : Z) :
  100000 <= n <= 999999 ->
  String.length (toString n) = 6%nat /\ all_digits (toString n) = true.
Proof.
  intros Hn.
  set (m := Z.to_N n).
  set (L := digit (m mod 10) (digit (m / 10 mod 10) (digit (m / 100 mod 10)
            (digit (m / 1000 mod 10) (digit (m / 10000 mod 10)
            (digit (m / 100000) Decimal.Nil)))))).
  assert (m = DecimalPos.Unsigned.of_lu L) as HL.
  { unfold L. rewrite !of_lu_digit; simpl DecimalPos.Unsigned.of_lu;
      try (apply N.mod_lt; lia).
    - subst m. zify. Z.to_euclidean_division_equations. lia.
    - subst m. zify. Z.to_euclidean_division_equations. lia. }
  assert (N.to_uint m = Decimal.rev L) as Hto.
  { rewrite HL, <- DecimalPos.Unsigned.of_lu_rev.
    change (Pos.of_uint (Decimal.rev L)) with (N.of_uint (Decimal.rev L)).
    rewrite DecimalN.Unsigned.to_of.
    unfold L, Decimal.rev. rewrite !revapp_digit. simpl Decimal.revapp.
    apply unorm_digit. subst m. zify. Z.to_euclidean_division_equations. lia. }
  assert (toString n = NilZero.string_of_uint (N.to_uint m)) as ->.
  { unfold toString, m. destruct n as [|q|q]; try lia. reflexivity. }
  rewrite Hto. unfold L, Decimal.rev. rewrite !revapp_digit. simpl Decimal.revapp.
  assert (forall k d, NilZero.string_of_uint (digit k d)
                      = NilEmpty.string_of_uint (digit k d)) as ->.
  { intros k d. pose proof (digit_not_Nil k d). unfold NilZero.string_of_uint.
    by destruct (digit k d). }
  repeat match goal with
  | |- context [NilEmpty.string_of_uint (digit ?k ?d)] =>
      let c := fresh "c" in let Hc := fresh "Hc" in let Hd := fresh "Hd" in
      destruct (string_of_digit k d) as (c & Hc & Hd); rewrite Hc; clear Hc
  end.
  simpl. by rewrite Hd, Hd0, Hd1, Hd2, Hd3, Hd4.
Qed.

(** For every number that [Math.random()] can give, a binary64 value from 0
    up to and not including 1, the OTP is a text of exactly six decimal
    digits: neither the rounding of the product nor that of the sum takes
    the sum to 1000000. *)
Theorem generateOTP_six_digits (draw : Z) :
  0 <= draw < binary64_one -> binary64 draw ->
  String.length (generateOTP draw) = 6%nat /\ all_digits (generateOTP draw) = true.
Proof.
  intros Hdraw Hb. unfold generateOTP. cbn zeta.
  apply toString_six_digits. by apply otp_floor_bounds.
Qed.

Lemma unhex_hex2 (b : byte) (s : string) :
  unhex (hex2 b +:+ s) = cons b <$> unhex s.
Proof. destruct b; reflexivity. Qed.

Lemma concat_hex2 (b : byte) (bs : list byte) :
  String.concat "" (map hex2 (b :: bs)) = hex2 b +:+ String.concat "" (map hex2 bs).
Proof. destruct bs as [|b' bs]; [|done]. by destruct b. Qed.

Lemma unhex_concat (bs : list byte) : unhex (String.concat "" (map hex2 bs)) = Some bs.
Proof.
  induction bs as [|b bs IH]; [done|].
  by rewrite concat_hex2, unhex_hex2, IH.
Qed.

Lemma length_concat_hex2 (bs : list byte) :
  String.length (String.concat "" (map hex2 bs)) = (2 * length bs)%nat.
Proof.
  induction bs as [|b bs IH]; [done|].
  rewrite concat_hex2.
  change (String.length (hex2 b +:+ String.concat "" (map hex2 bs)))
    with (S (S (String.length (String.concat "" (map hex2 bs))))).
  rewrite IH. simpl. lia.
Qed.

(** The hexadecimal text that [hashPassword] returns reads back to the
    bytes of the digest, two characters to a byte.  So two passwords have
    the same text exactly when the digests of their peppered bytes are equal,
    and that is exactly when [verifyPassword] accepts one for the other. *)
Theorem hashPassword_hex (password password' : string) :
  let digest_of := fun pw => sha256 (encode (pw +:+ "salt_key_2024")) in
  unhex (hashPassword sha256 password) = Some (digest_of password)
  /\ String.length (hashPassword sha256 password) = (2 * length (digest_of password))%nat
  /\ (verifyPassword sha256 password (hashPassword sha256 password') = true
      <-> digest_of password = digest_of password').
Proof.
  cbn zeta. unfold hashPassword. split; [apply unhex_concat|].
  split; [apply length_concat_hex2|].
  rewrite verifyPassword_true_iff. unfold hashPassword. split; [|by intros ->].
  intros Heq. apply (f_equal unhex) in Heq. rewrite !unhex_concat in Heq.
  by injection Heq.
Qed.

End Texts.

(** ** logout, getCurrentUser and isSessionValid *)

Section Sessions.

(** After [logout] no session is current: [isSessionValid] is [false] and
    [getCurrentUser] returns [null] without an effect, whatever the time; the
    sessions of other tokens, the users and the persisted array are
    untouched; a second [logout] changes nothing. *)
Theorem logout_ends_session (now : Z) (st : State) :
  isSessionValid now (logout st) = false
  /\ getCurrentUser now (logout st) = (None, logout st)
  /\ fortas_session_token (logout st) = None
  /\ (forall token, truthy_token (fortas_session_token st) <> Some token ->
                    sessions (logout st) !! token = sessions st !! token)
  /\ users (logout st) = users st /\ heap (logout st) = heap st
  /\ fortas_users (logout st) = fortas_users st
  /\ logout (logout st) = logout st.
Proof.
  repeat split.
  intros token Hne. cbn [logout sessions].
  destruct (truthy_token (fortas_session_token st)) as [current|]; [|done].
  apply lookup_delete_ne. congruence.
Qed.

(** [getCurrentUser] never vouches for a missing or expired session, nor
    for another user than the session's: when it returns a user, the current
    token has a session that has not expired at [now] ([now <= expires]),
    the user has the id of that session and is marked authenticated, and the
    session is left in place. *)
Theorem getCurrentUser_sound (now : Z) (st : State) (p : User) :
  fst (getCurrentUser now st) = Some p ->
  exists token session,
    truthy_token (fortas_session_token st) = Some token
    /\ sessions st !! token = Some session
    /\ now <= expires session
    /\ id p = userId session
    /\ isAuthenticated p = true
    /\ snd (getCurrentUser now st) = loadUsers st.
Proof.
  unfold getCurrentUser.
  destruct (truthy_token (fortas_session_token st)) as [token|] eqn:Htoken; [|done].
  destruct (sessions st !! token) as [session|] eqn:Hsession; [|done].
  destruct (now >? expires session) eqn:E; [done|].
  destruct (List.find _ _) as [user0|] eqn:Hfind; [|done].
  cbn [fst snd]. intros [= <-]. exists token, session.
  apply find_some in Hfind as [_ Hid]. apply String.eqb_eq in Hid.
  split; [done|]. split; [done|]. split; [lia|]. by split.
Qed.

(** Lazy eviction: when the current token has no session, or one that has
    expired ([now > expires]), [getCurrentUser] returns [null] and logs out:
    the token is removed from [localStorage] and its session from the map. *)
Theorem getCurrentUser_evicts (now : Z) (st : State) (token : string) :
  truthy_token (fortas_session_token st) = Some token ->
  (forall session, sessions st !! token = Some session -> now > expires session) ->
  getCurrentUser now st = (None, logout st)
  /\ fortas_session_token (snd (getCurrentUser now st)) = None
  /\ sessions (snd (getCurrentUser now st)) !! token = None.
Proof.
  intros Htoken Hexpired.
  assert (getCurrentUser now st = (None, logout st)) as ->.
  { unfold getCurrentUser. rewrite Htoken.
    destruct (sessions st !! token) as [session|]; [|done].
    specialize (Hexpired session eq_refl).
    destruct (now >? expires session) eqn:E; [done|lia]. }
  repeat split. cbn [snd logout sessions]. rewrite Htoken. apply lookup_delete_eq.
Qed.

(** The two session checks differ at the instant of expiry: for a current
    session, [isSessionValid] is [now < expires], while [getCurrentUser]
    still returns the user of the session at [now = expires]. *)
Theorem session_checks_at_expiry (now : Z) (st : State) (token : string)
    (session : Session) (u : StoredUser) :
  truthy_token (fortas_session_token st) = Some token ->
  sessions st !! token = Some session ->
  List.find (fun u => String.eqb (id (user u)) (userId session))
            (users_values (loadUsers st)) = Some u ->
  isSessionValid now st = (now <? expires session)
  /\ (now <= expires session -> fst (getCurrentUser now st) = Some (public_user u))
  /\ isSessionValid (expires session) st = false
  /\ fst (getCurrentUser (expires session) st) = Some (public_user u).
Proof.
  intros Htoken Hsession Hfind.
  assert (forall t, t <= expires session ->
                    fst (getCurrentUser t st) = Some (public_user u)) as Hcurrent.
  { intros t Ht. unfold getCurrentUser. rewrite Htoken, Hsession.
    destruct (t >? expires session) eqn:E; [lia|]. by rewrite Hfind. }
  unfold isSessionValid. rewrite Htoken, Hsession.
  split; [done|]. split; [apply Hcurrent|]. split; [lia|apply Hcurrent; lia].
Qed.

End Sessions.

(** ** resetPassword, when it is refused *)

Section ResetRefused.
Variable sha256 : list byte -> list byte.

Lemma findByKey_same_store (k : string) (st st' : State) :
  heap st' = heap st -> users st' = users st -> fortas_users st' = fortas_users st ->
  findByKey k st' = findByKey k st.
Proof.
  intros Hh Hu Hf. unfold findByKey, users_get, loadUsers, stored_users.
  cbn [users heap with_store]. by rewrite Hh, Hu, Hf.
Qed.

Lemma verifyOTP_same_store (t code : string) (p : OTPType) (now : Z) (st : State) :
  let st' := snd (verifyOTP t code p now st) in
  heap st' = heap st /\ users st' = users st /\ fortas_users st' = fortas_users st.
Proof.
  cbn zeta. unfold verifyOTP. destruct (otpStore st !! t); [|done].
  destruct (negb _); [done|]. destruct (_ >? _); [done|].
  by destruct (String.eqb _ _).
Qed.

(** A [resetPassword] that returns [false], for an unknown email or an OTP
    that does not verify, changes no user: the persisted array is the same
    and every key resolves to the record it resolved to before. *)
Theorem resetPassword_refused (resetData : PasswordResetData) (now : Z) (st : State) :
  wf_state st ->
  fst (resetPassword sha256 resetData now st) = false ->
  fortas_users (snd (resetPassword sha256 resetData now st)) = fortas_users st
  /\ forall k, findByKey k (snd (resetPassword sha256 resetData now st)) = findByKey k st.
Proof.
  intros Hwf. unfold resetPassword.
  destruct (map_get _ _) as [l|];
    [|intros _; split; [done|intros k; by apply findByKey_loadUsers]].
  destruct (heap (loadUsers st) !! l) as [user0|];
    [|intros _; split; [done|intros k; by apply findByKey_loadUsers]].
  pose proof (verifyOTP_same_store (reset_email resetData) (reset_otp resetData)
                otp_reset now (loadUsers st)) as (Hh & Hu & Hf).
  destruct (verifyOTP _ _ _ _ _) as [isValidOTP st2]. cbn [snd] in *.
  destruct isValidOTP; [done|]. cbn [negb fst snd]. intros _. split; [done|].
  intros k. rewrite (findByKey_same_store k (loadUsers st) st2 Hh Hu Hf).
  by apply findByKey_loadUsers.
Qed.

(** An unknown email is refused before the OTP is looked at: the entry of
    the email in [otpStore] is not consumed. *)
Theorem resetPassword_unknown_email (resetData : PasswordResetData) (now : Z) (st : State) :
  findByKey (reset_email resetData) st = None ->
  resetPassword sha256 resetData now st = (false, loadUsers st)
  /\ otpStore (snd (resetPassword sha256 resetData now st)) = otpStore st.
Proof.
  unfold findByKey, users_get, resetPassword. intros Hnone.
  destruct (map_get _ _) as [l|]; [|done]. by rewrite Hnone.
Qed.

End ResetRefused.

(** ** The handlers of AuthContext *)

Section Context.
Variable sha256 : list byte -> list byte.

Lemma login_never_returns_user (credentials : LoginData) (rnd : string) (now : Z)
    (st : State) :
  fst (login sha256 credentials rnd now st) = Returned None
  \/ fst (login sha256 credentials rnd now st) = Thrown (ReferenceError "rememberMe").
Proof.
  unfold login, login_in_scope.
  destruct (map_get _ _) as [l|]; [|by left].
  destruct (heap (loadUsers st) !! l) as [user0|]; [|by left].
  destruct (negb _); [by left|by right].
Qed.

(** The [login] handler never reports success: whatever the credentials, it
    returns [false] and leaves the user and [isAuthenticated] of the provider
    as they were, with the error 'Invalid credentials' or 'Login failed.
    Please try again.'; credentials that verify get the second one. *)
Theorem context_login_never_succeeds (credentials : LoginData) (rememberMe : bool)
    (rnd : string) (now : Z) (authState : AuthContext.AuthState) (st : State) :
  let result := AuthContext.login sha256 credentials rememberMe rnd now authState st in
  let authState' := snd (fst result) in
  fst (fst result) = false
  /\ AuthContext.user authState' = AuthContext.user authState
  /\ AuthContext.isAuthenticated authState' = AuthContext.isAuthenticated authState
  /\ AuthContext.isLoading authState' = false
  /\ (AuthContext.error authState' = Some "Invalid credentials"
      \/ AuthContext.error authState' = Some "Login failed. Please try again.")
  /\ (forall u, findByKey (emailOrMobile credentials) st = Some u ->
                verifyPassword sha256 (password credentials) (hashedPassword u) = true ->
                AuthContext.error authState' = Some "Login failed. Please try again.").
Proof.
  cbn zeta. unfold AuthContext.login.
  split; [|split; [|split; [|split; [|split]]]].
  1-5: destruct (login_never_returns_user credentials rnd now st) as [H|H];
       destruct (login sha256 credentials rnd now st) as [c st'];
       cbn [fst] in H; subst c; cbn; auto.
  intros u Hu Hv.
  destruct (login_match sha256 None credentials rnd now st u Hu Hv) as (st2 & _ & _ & H).
  unfold login. by rewrite H.
Qed.

(** The [updateProfile] and [upgradeToPremium] handlers, when the provider
    holds a user whose id no object of the store has: they return [false]
    after having set [isLoading], and never reset it. *)
Theorem context_handlers_left_loading (updates : UserProfileUpdates) (u : User)
    (authState : AuthContext.AuthState) (st : State) :
  AuthContext.user authState = Some u ->
  id_unused (id u) (loadUsers st) = true ->
  AuthContext.updateProfile updates authState st
  = (false, AuthContext.start_loading authState, loadUsers st)
  /\ AuthContext.upgradeToPremium authState st
     = (false, AuthContext.start_loading authState, loadUsers st)
  /\ AuthContext.isLoading (AuthContext.start_loading authState) = true.
Proof.
  intros Hu Hunused.
  destruct (by_id_unknown (id u) updates act_chat st Hunused) as (Hupd & Hupg & _).
  unfold AuthContext.updateProfile, AuthContext.upgradeToPremium.
  by rewrite Hu, Hupd, Hupg.
Qed.

(** The [upgradeToPremium] handler for a stored user.  Let the provider
    hold a user with the id of the record [r] that the key [k] resolves to,
    [k] being the email or the mobile number of [r], where the object that
    the map holds under [k] is the first object of the map with that id, and
    no record of another id has [k] as its email or mobile number.  Then the
    handler returns [true], the user of the provider becomes the same user
    with ['Premium'], loading is over, and [k] resolves to [r] with
    ['Premium'] as well. *)
Theorem context_upgrade_agrees (k : string) (r : StoredUser) (p : User)
    (authState : AuthContext.AuthState) (st : State) :
  wf_state st ->
  AuthContext.user authState = Some p -> id p = id (user r) ->
  findByKey k st = Some r -> has_key k r = true ->
  snd <$> find_entry_by_id (id (user r)) (loadUsers st) = map_get k (users (loadUsers st)) ->
  key_free_for (id (user r)) k (loadUsers st) = true ->
  let result := AuthContext.upgradeToPremium authState st in
  fst (fst result) = true
  /\ AuthContext.user (snd (fst result)) = Some (as_premium p)
  /\ AuthContext.isLoading (snd (fst result)) = false
  /\ findByKey k (snd result) = Some (set_membershipType Premium r).
Proof.
  intros Hwf Hp Hid Hget Hkey Hfirst Hfree result.
  destruct (upgradeToPremium_of_stored k r st Hwf Hget Hkey Hfirst Hfree)
    as (st' & Heq & Hnow & _).
  subst result. unfold AuthContext.upgradeToPremium. by rewrite Hp, Hid, Heq.
Qed.

End Context.

(** ** Files: from the input of the chat to the request *)

Section FilesSent.

Lemma filter_twice {A} (p q : A -> bool) (l : list A) :
  List.filter p (List.filter q l) = List.filter (fun x => q x && p x) l.
Proof.
  induction l as [|x l IH]; [done|]. cbn [List.filter].
  destruct (q x); cbn [andb List.filter]; [|exact IH].
  destruct (p x); by rewrite IH.
Qed.

(** The files that reach the request when [handleFiles] has accepted them:
    they are the files of type image/... or application/pdf of at most
    10 MB (10485760 bytes).  A file that [handleFiles] accepts and
    [generateResponse] leaves out has 'spreadsheet' or 'excel' in its type. *)
Theorem files_reaching_the_request (files accepted : list Files.File) :
  Files.handleFiles true files = Some accepted ->
  Files.sentParts accepted
  = List.filter (fun f => Files.isSent f && (Files.size f <=? 10485760)) files
  /\ (forall f, f ∈ accepted -> Files.size f <= 10485760)
  /\ (forall f, f ∈ accepted -> f ∉ Files.sentParts accepted ->
                Files.includes "spreadsheet" (Files.type f) = true
                \/ Files.includes "excel" (Files.type f) = true).
Proof.
  unfold Files.handleFiles. cbn [negb].
  intros Hacc.
  assert (accepted = List.filter Files.isValidFile files) as ->.
  { destruct (List.filter Files.isValidFile files); [done|congruence]. }
  clear Hacc. split; [|split].
  - unfold Files.sentParts. rewrite filter_twice. apply List.filter_ext.
    intros f. unfold Files.isValidFile, Files.isSent.
    change (10 * 1024 * 1024) with 10485760.
    destruct (Files.startsWith "image/" (Files.type f));
      destruct (String.eqb (Files.type f) "application/pdf");
      destruct (Files.includes "spreadsheet" (Files.type f));
      destruct (Files.includes "excel" (Files.type f));
      by destruct (Files.size f <=? 10485760).
  - intros f Hf%list_elem_of_In. apply filter_In in Hf as [_ Hv].
    unfold Files.isValidFile in Hv. apply andb_true_iff in Hv as [_ Hs].
    change (10 * 1024 * 1024) with 10485760 in Hs. lia.
  - intros f Hf Hnot.
    assert (Files.isSent f = false) as Hsent.
    { destruct (Files.isSent f) eqn:E; [|done]. exfalso. apply Hnot.
      apply list_elem_of_In, filter_In. split; [by apply list_elem_of_In|done]. }
    apply list_elem_of_In, filter_In in Hf as [_ Hv].
    unfold Files.isValidFile in Hv. unfold Files.isSent in Hsent.
    apply andb_true_iff in Hv as [Ht _].
    apply orb_false_iff in Hsent as [Hi Hp]. rewrite Hi, Hp in Ht. cbn in Ht.
    by apply orb_true_iff in Ht.
Qed.

End FilesSent.

(** ** The scenarios of the specification, run on the model *)

Section Scenarios.

Lemma asha_registered_resolves :
  findByKey "a@x.com" asha_registered = Some asha_stored
  /\ findByKey "9990001111" asha_registered = Some asha_stored.
Proof. vm_compute. by split. Qed.

Lemma wf_state_asha_registered : wf_state asha_registered.
Proof. apply wf_state_register, wf_state_initial. Qed.

(** Against C4: registering the same identity a second time does not return,
    it throws. *)
Lemma register_twice_throws :
  fst (register sample_digest asha 2000 asha_registered)
  = Thrown (JsError "User already exists with this email or mobile number")
  /\ throws (fst (register sample_digest asha 2000 asha_registered)) = true.
Proof. vm_compute. by split. Qed.


(** A reset after an email change is lost.  Once the user has changed her
    email, the map holds the stale object under the old key, first of its id.
    [resetPassword] under the new email returns [true], yet [saveUsers] keeps
    the stale object with the old digest: the persisted digest is still that
    of pw1, [login] with pw2 returns [null] even where [rememberMe] is bound,
    and [login] with pw1 still gets past the credential check. *)
Lemma reset_lost_after_email_change :
  let issued := sendOTP "b@x.com" otp_reset 23456 2000 asha_moved in
  let reset :=
    resetPassword sample_digest
      {| reset_email := "b@x.com"; reset_newPassword := "pw2";
         reset_otp := generateOTP 23456 |}
      3000 (snd issued) in
  fst reset = true
  /\ map hashedPassword (stored_users (snd reset)) = [hashPassword sample_digest "pw1"]
  /\ fst (login_in_scope sample_digest (Some false)
            {| emailOrMobile := "b@x.com"; password := "pw2" |} "k3x9" 4000 (snd reset))
     = Returned None
  /\ fst (login sample_digest {| emailOrMobile := "b@x.com"; password := "pw1" |}
            "k3x9" 4000 (snd reset))
     = Thrown (ReferenceError "rememberMe").
Proof. vm_compute. repeat split. Qed.

End Scenarios.

(** ** The theorems at the sample data *)

Section Instances.


Lemma login_valid_credentials_throw_witness :
  fst (login sample_digest {| emailOrMobile := "a@x.com"; password := "pw1" |}
         "k3x9" 2000 asha_registered)
  = Thrown (ReferenceError "rememberMe")
  /\ isSessionValid 2000
       (snd (login sample_digest {| emailOrMobile := "a@x.com"; password := "pw1" |}
               "k3x9" 2000 asha_registered))
     = false.
Proof.
  destruct (login_valid_credentials_throw sample_digest
              {| emailOrMobile := "a@x.com"; password := "pw1" |} "k3x9" 2000
              asha_registered asha_stored)
    as (Hthrown & _ & _ & Hvalid).
  - vm_compute. reflexivity.
  - vm_compute. reflexivity.
  - split; [exact Hthrown|]. rewrite Hvalid. vm_compute. reflexivity.
Defined.

Lemma register_duplicate_witness :
  is_Some (findByKey (reg_email asha) asha_registered)
  /\ fst (register sample_digest asha 2000 asha_registered)
     = Thrown (JsError "User already exists with this email or mobile number")
  /\ fortas_users (snd (register sample_digest asha 2000 asha_registered))
     = fortas_users asha_registered.
Proof.
  assert (is_Some (findByKey (reg_email asha) asha_registered)) as Hdup.
  { exists asha_stored. vm_compute. reflexivity. }
  split; [exact Hdup|].
  destruct (register_duplicate sample_digest asha 2000 asha_registered
              wf_state_asha_registered (or_introl Hdup))
    as (Hthrown & Hsame & _ & _).
  split; [exact Hthrown|exact Hsame].
Defined.

Lemma login_no_existence_leak_witness :
  fst (login sample_digest {| emailOrMobile := "a@x.com"; password := "guess" |}
         "k3x9" 2000 initial_state)
  = fst (login sample_digest {| emailOrMobile := "a@x.com"; password := "guess" |}
           "p0q7" 3000 asha_registered).
Proof.
  apply (login_no_existence_leak sample_digest None
           {| emailOrMobile := "a@x.com"; password := "guess" |}
           "k3x9" "p0q7" 2000 3000 initial_state asha_registered asha_stored).
  - vm_compute. reflexivity.
  - vm_compute. reflexivity.
  - vm_compute. reflexivity.
Defined.

Lemma otp_single_use_witness :
  fst (verifyOTP "a@x.com" (generateOTP 23456) otp_reset 3000
         (snd (verifyOTP "a@x.com" (generateOTP 23456) otp_reset 2500
                 (snd (sendOTP "a@x.com" otp_reset 23456 2000 initial_state)))))
  = false.
Proof.
  apply (otp_single_use "a@x.com" otp_reset 23456 2000 2500 3000 initial_state).
  vm_compute. reflexivity.
Defined.

Lemma otp_expiry_witness :
  fst (verifyOTP "a@x.com" (generateOTP 23456) otp_reset 302001
         (snd (sendOTP "a@x.com" otp_reset 23456 2000 initial_state)))
  = false.
Proof.
  apply (otp_expiry "a@x.com" otp_reset 23456 2000 302001 initial_state). lia.
Defined.

Lemma otp_keyed_by_target_witness :
  verifyOTP "a@x.com" (generateOTP 23456) otp_reset 2200
    (snd (sendOTP "a@x.com" otp_login 65432 2100
            (snd (sendOTP "a@x.com" otp_reset 23456 2000 initial_state))))
  = (false,
     snd (sendOTP "a@x.com" otp_login 65432 2100
            (snd (sendOTP "a@x.com" otp_reset 23456 2000 initial_state)))).
Proof.
  apply (otp_keyed_by_target "a@x.com" otp_reset otp_login 23456 65432 2000 2100 2200
           initial_state).
  discriminate.
Defined.

Lemma reset_then_login_witness :
  let issued := sendOTP "a@x.com" otp_reset 23456 2000 asha_registered in
  let reset :=
    resetPassword sample_digest
      {| reset_email := "a@x.com"; reset_newPassword := "pw2";
         reset_otp := generateOTP 23456 |}
      3000 (snd issued) in
  let old_login :=
    login sample_digest {| emailOrMobile := "a@x.com"; password := "pw1" |}
      "k3x9" 4000 (snd reset) in
  let new_login :=
    login sample_digest {| emailOrMobile := "a@x.com"; password := "pw2" |}
      "p0q7" 5000 (snd old_login) in
  fst reset = true
  /\ fst old_login = Returned None
  /\ fst new_login = Thrown (ReferenceError "rememberMe").
Proof.
  destruct (reset_then_login sample_digest "a@x.com" "pw1" "pw2" "k3x9" "p0q7"
              23456 2000 3000 4000 5000 asha_registered asha_stored)
    as (_ & Hreset & Hold & Hnew & _).
  - exact wf_state_asha_registered.
  - vm_compute. reflexivity.
  - reflexivity.
  - vm_compute. reflexivity.
  - vm_compute. reflexivity.
  - vm_compute. reflexivity.
  - vm_compute. discriminate.
  - lia.
  - split; [exact Hreset|]. split; [exact Hold|exact Hnew].
Defined.

Lemma expected_outcomes_witness :
  let st := snd (sendOTP "a@x.com" otp_reset 23456 2000 asha_registered) in
  fst (register sample_digest asha 2500 st)
  = Thrown (JsError "User already exists with this email or mobile number")
  /\ fst (login sample_digest {| emailOrMobile := "a@x.com"; password := "guess" |}
            "k3x9" 2500 st)
     = Returned None
  /\ fst (login sample_digest {| emailOrMobile := "nobody@x.com"; password := "pw1" |}
            "k3x9" 2500 st)
     = Returned None
  /\ fst (verifyOTP "a@x.com" "000000" otp_reset 2500 st) = false
  /\ fst (verifyOTP "a@x.com" (generateOTP 23456) otp_reset 302001 st) = false
  /\ fst (verifyOTP "a@x.com" (generateOTP 23456) otp_login 2500 st) = false.
Proof.
  intros st.
  destruct (expected_outcomes sample_digest asha
              {| emailOrMobile := "a@x.com"; password := "guess" |} None
              "k3x9" "a@x.com" "000000" otp_reset 2500 st)
    as (Hreg & Hmismatch & Hwrong).
  destruct (expected_outcomes sample_digest asha
              {| emailOrMobile := "nobody@x.com"; password := "pw1" |} None
              "k3x9" "a@x.com" (generateOTP 23456) otp_reset 302001 st)
    as (_ & Hunknown & Hexpired).
  destruct (expected_outcomes sample_digest asha
              {| emailOrMobile := "nobody@x.com"; password := "pw1" |} None
              "k3x9" "a@x.com" (generateOTP 23456) otp_login 2500 st)
    as (_ & _ & Hpurpose).
  split; [|split; [|split; [|split; [|split]]]].
  - apply Hreg. left. exists asha_stored. vm_compute. reflexivity.
  - apply Hmismatch. right. exists asha_stored. split; vm_compute; reflexivity.
  - apply Hunknown. left. vm_compute. reflexivity.
  - apply Hwrong. intros entry Hentry. vm_compute in Hentry. injection Hentry as <-.
    right. right. vm_compute. discriminate.
  - apply Hexpired. intros entry Hentry. vm_compute in Hentry. injection Hentry as <-.
    right. left. vm_compute. reflexivity.
  - apply Hpurpose. intros entry Hentry. vm_compute in Hentry. injection Hentry as <-.
    left. discriminate.
Defined.

End Instances.

(** ** The further theorems at the sample data *)

Section MoreInstances.

Lemma getCurrentUser_sound_witness :
  exists token session,
    truthy_token (fortas_session_token asha_in_session) = Some token
    /\ sessions asha_in_session !! token = Some session
    /\ 5000 <= expires session
    /\ id (public_user asha_stored) = userId session
    /\ isAuthenticated (public_user asha_stored) = true
    /\ snd (getCurrentUser 5000 asha_in_session) = loadUsers asha_in_session.
Proof.
  apply (getCurrentUser_sound 5000 asha_in_session (public_user asha_stored)).
  vm_compute. reflexivity.
Defined.

Lemma getCurrentUser_evicts_witness :
  getCurrentUser 90001 asha_in_session = (None, logout asha_in_session)
  /\ fortas_session_token (snd (getCurrentUser 90001 asha_in_session)) = None
  /\ sessions (snd (getCurrentUser 90001 asha_in_session)) !! "k3x9s" = None.
Proof.
  apply (getCurrentUser_evicts 90001 asha_in_session "k3x9s").
  - reflexivity.
  - intros session Hsession. vm_compute in Hsession.
    injection Hsession as <-. vm_compute. reflexivity.
Defined.

Lemma session_checks_at_expiry_witness :
  isSessionValid 90000 asha_in_session = false
  /\ fst (getCurrentUser 90000 asha_in_session) = Some (public_user asha_stored).
Proof.
  destruct (session_checks_at_expiry 90000 asha_in_session "k3x9s"
              {| userId := "user_1000"; expires := 90000 |} asha_stored)
    as (_ & _ & Hvalid & Hcurrent).
  - reflexivity.
  - vm_compute. reflexivity.
  - vm_compute. reflexivity.
  - split; [exact Hvalid|exact Hcurrent].
Defined.

Lemma unknown_id_is_no_op_witness :
  updateProfile "user_9" (change_email "b@x.com") asha_registered
  = (None, loadUsers asha_registered)
  /\ upgradeToPremium "user_9" asha_registered = (false, loadUsers asha_registered)
  /\ updateActivityStats "user_9" act_file asha_registered = loadUsers asha_registered
  /\ fortas_users (loadUsers asha_registered) = fortas_users asha_registered.
Proof.
  apply (unknown_id_is_no_op "user_9" (change_email "b@x.com") act_file asha_registered).
  vm_compute. reflexivity.
Defined.

Lemma upgradeToPremium_persists_witness :
  fst (upgradeToPremium "user_1000" asha_registered) = true
  /\ findByKey "a@x.com" (snd (upgradeToPremium "user_1000" asha_registered))
     = Some (set_membershipType Premium asha_stored)
  /\ findByKey "a@x.com" (reload_page (snd (upgradeToPremium "user_1000" asha_registered)))
     = Some (set_membershipType Premium asha_stored).
Proof.
  apply (upgradeToPremium_persists "a@x.com" asha_stored asha_registered).
  - exact wf_state_asha_registered.
  - vm_compute. reflexivity.
  - vm_compute. reflexivity.
  - vm_compute. reflexivity.
  - vm_compute. reflexivity.
Defined.

Lemma updateActivityStats_counts_witness :
  findByKey "9990001111" (updateActivityStats "user_1000" act_file asha_registered)
  = Some (counted act_file asha_stored)
  /\ findByKey "9990001111"
       (reload_page (updateActivityStats "user_1000" act_file asha_registered))
     = Some (counted act_file asha_stored)
  /\ (exists after,
        counted act_file asha_stored = set_activityStats after asha_stored
        /\ counter act_file after
           = increment (counter act_file (stats_or_zero (activityStats (user asha_stored))))
        /\ (0 <= counter act_file (stats_or_zero (activityStats (user asha_stored))) < 2 ^ 53 ->
            counter act_file after
            = counter act_file (stats_or_zero (activityStats (user asha_stored))) + 1)
        /\ (forall other, other <> act_file ->
                          counter other after
                          = counter other (stats_or_zero (activityStats (user asha_stored))))).
Proof.
  apply (updateActivityStats_counts "9990001111" act_file asha_stored asha_registered).
  - exact wf_state_asha_registered.
  - vm_compute. reflexivity.
  - vm_compute. reflexivity.
  - vm_compute. reflexivity.
  - vm_compute. reflexivity.
Defined.

Lemma updateProfile_merges_witness :
  fst (updateProfile "user_1000" (change_email "b@x.com") asha_registered)
  = Some (public_user (Object_assign asha_stored (change_email "b@x.com")))
  /\ findByKey "9990001111" asha_moved
     = Some (Object_assign asha_stored (change_email "b@x.com"))
  /\ findByKey "9990001111" (reload_page asha_moved)
     = Some (Object_assign asha_stored (change_email "b@x.com")).
Proof.
  apply (updateProfile_merges "9990001111" (change_email "b@x.com") asha_stored
           asha_registered).
  - exact wf_state_asha_registered.
  - vm_compute. reflexivity.
  - reflexivity.
  - vm_compute. reflexivity.
  - vm_compute. reflexivity.
  - vm_compute. reflexivity.
Defined.

Lemma register_fresh_witness :
  fst (register sample_digest asha 1000 initial_state) = Returned (new_user asha 1000)
  /\ findByKey "a@x.com" asha_registered = Some (new_stored_user sample_digest asha 1000)
  /\ findByKey "9990001111" (reload_page asha_registered)
     = Some (new_stored_user sample_digest asha 1000).
Proof.
  destruct (register_fresh sample_digest asha 1000 initial_state)
    as (Hret & _ & Hemail & _ & _ & Hmobile & _).
  - exact wf_state_initial.
  - vm_compute. reflexivity.
  - vm_compute. reflexivity.
  - vm_compute. reflexivity.
  - vm_compute. reflexivity.
  - vm_compute. reflexivity.
  - split; [exact Hret|]. split; [exact Hemail|exact Hmobile].
Defined.

Lemma register_same_id_not_persisted_witness :
  fst (register sample_digest binu 1000 asha_registered) = Returned (new_user binu 1000)
  /\ findByKey "b@y.org" (snd (register sample_digest binu 1000 asha_registered))
     = Some (new_stored_user sample_digest binu 1000)
  /\ findByKey "b@y.org"
       (reload_page (snd (register sample_digest binu 1000 asha_registered)))
     = None.
Proof.
  destruct (register_same_id_not_persisted sample_digest binu 1000 asha_registered)
    as (Hret & Hnow & _ & Hreload).
  - exact wf_state_asha_registered.
  - vm_compute. reflexivity.
  - vm_compute. reflexivity.
  - vm_compute. reflexivity.
  - vm_compute. reflexivity.
  - split; [exact Hret|]. split; [exact Hnow|exact Hreload].
Defined.

Lemma key_keeps_resolving_witness :
  is_Some (findByKey "a@x.com"
             (run_all sample_digest asha_registered
                [CallUpdateProfile "user_1000" (change_email "b@x.com"); CallLogout]))
  /\ fst (register sample_digest asha 3000
            (run_all sample_digest asha_registered
               [CallUpdateProfile "user_1000" (change_email "b@x.com"); CallLogout]))
     = Thrown (JsError "User already exists with this email or mobile number").
Proof.
  destruct (key_keeps_resolving sample_digest "a@x.com"
              [CallUpdateProfile "user_1000" (change_email "b@x.com"); CallLogout]
              asha_registered)
    as (Hresolves & Hregister).
  - exact wf_state_asha_registered.
  - exists asha_stored. vm_compute. reflexivity.
  - split; [exact Hresolves|]. apply Hregister. by left.
Defined.

Lemma otp_wrong_guesses_witness :
  fst (verifyOTP "a@x.com" (generateOTP 23456) otp_reset 2900
         (fold_left (fun s a => snd (verifyOTP "a@x.com" (fst a) otp_reset (snd a) s))
            [("000000", 2100); ("111111", 2200)]
            (snd (sendOTP "a@x.com" otp_reset 23456 2000 initial_state))))
  = true.
Proof.
  apply (otp_wrong_guesses "a@x.com" otp_reset 23456 2000 2900 initial_state
           [("000000", 2100); ("111111", 2200)]).
  - repeat constructor; cbn [fst snd]; try lia; vm_compute; discriminate.
  - lia.
Defined.

Lemma otp_local_witness :
  otpStore (snd (sendOTP "a@x.com" otp_login 65432 2100
                   (snd (sendOTP "9990001111" otp_reset 23456 2000 initial_state))))
    !! "9990001111"
  = otpStore (snd (sendOTP "9990001111" otp_reset 23456 2000 initial_state))
      !! "9990001111".
Proof.
  apply (otp_local "a@x.com" "9990001111" "123456" otp_login 65432 2100
           (snd (sendOTP "9990001111" otp_reset 23456 2000 initial_state))).
  discriminate.
Defined.

Lemma generateOTP_six_digits_witness :
  generateOTP (150119987579 * 2 ^ 1022) = "100030"
  /\ String.length (generateOTP (150119987579 * 2 ^ 1022)) = 6%nat
  /\ all_digits (generateOTP (150119987579 * 2 ^ 1022)) = true.
Proof.
  split; [by vm_compute|].
  apply (generateOTP_six_digits (150119987579 * 2 ^ 1022)).
  - by vm_compute.
  - exists 150119987579, 1022. split; [lia|]. split; [lia|reflexivity].
Defined.

Lemma resetPassword_refused_witness :
  fortas_users
    (snd (resetPassword sample_digest
            {| reset_email := "a@x.com"; reset_newPassword := "pw2"; reset_otp := "000000" |}
            3000 (snd (sendOTP "a@x.com" otp_reset 23456 2000 asha_registered))))
  = fortas_users asha_registered.
Proof.
  apply (resetPassword_refused sample_digest
           {| reset_email := "a@x.com"; reset_newPassword := "pw2"; reset_otp := "000000" |}
           3000 (snd (sendOTP "a@x.com" otp_reset 23456 2000 asha_registered))).
  - apply wf_state_sendOTP. exact wf_state_asha_registered.
  - vm_compute. reflexivity.
Defined.

Lemma resetPassword_unknown_email_witness :
  otpStore
    (snd (resetPassword sample_digest
            {| reset_email := "b@y.org"; reset_newPassword := "pw2";
               reset_otp := generateOTP 23456 |}
            3000 (snd (sendOTP "b@y.org" otp_reset 23456 2000 asha_registered))))
  = otpStore (snd (sendOTP "b@y.org" otp_reset 23456 2000 asha_registered)).
Proof.
  apply (resetPassword_unknown_email sample_digest
           {| reset_email := "b@y.org"; reset_newPassword := "pw2";
              reset_otp := generateOTP 23456 |}
           3000 (snd (sendOTP "b@y.org" otp_reset 23456 2000 asha_registered))).
  vm_compute. reflexivity.
Defined.

Lemma context_handlers_left_loading_witness :
  AuthContext.updateProfile (change_email "b@x.com") stranger_provider asha_registered
  = (false, AuthContext.start_loading stranger_provider, loadUsers asha_registered)
  /\ AuthContext.upgradeToPremium stranger_provider asha_registered
     = (false, AuthContext.start_loading stranger_provider, loadUsers asha_registered)
  /\ AuthContext.isLoading (AuthContext.start_loading stranger_provider) = true.
Proof.
  apply (context_handlers_left_loading (change_email "b@x.com") (new_user binu 7)
           stranger_provider asha_registered).
  - reflexivity.
  - vm_compute. reflexivity.
Defined.

Lemma context_upgrade_agrees_witness :
  fst (fst (AuthContext.upgradeToPremium asha_provider asha_registered)) = true
  /\ AuthContext.user (snd (fst (AuthContext.upgradeToPremium asha_provider asha_registered)))
     = Some (as_premium (new_user asha 1000))
  /\ AuthContext.isLoading
       (snd (fst (AuthContext.upgradeToPremium asha_provider asha_registered)))
     = false
  /\ findByKey "a@x.com" (snd (AuthContext.upgradeToPremium asha_provider asha_registered))
     = Some (set_membershipType Premium asha_stored).
Proof.
  apply (context_upgrade_agrees "a@x.com" asha_stored (new_user asha 1000)
           asha_provider asha_registered).
  - exact wf_state_asha_registered.
  - reflexivity.
  - reflexivity.
  - vm_compute. reflexivity.
  - vm_compute. reflexivity.
  - vm_compute. reflexivity.
  - vm_compute. reflexivity.
Defined.

Lemma files_reaching_the_request_witness :
  Files.sentParts (List.filter Files.isValidFile dropped_files)
  = [ {| Files.name := "kiln.png"; Files.type := "image/png"; Files.size := 204800 |} ]
  /\ Files.handleFiles true dropped_files
     = Some [ {| Files.name := "kiln.png"; Files.type := "image/png";
                 Files.size := 204800 |};
              {| Files.name := "costs.xls"; Files.type := "application/vnd.ms-excel";
                 Files.size := 51200 |} ].
Proof.
  destruct (files_reaching_the_request dropped_files
              (List.filter Files.isValidFile dropped_files))
    as (Hsent & _ & _).
  - vm_compute. reflexivity.
  - split; [|vm_compute; reflexivity]. rewrite Hsent. vm_compute. reflexivity.
Defined.

End MoreInstances.
